(** * Campaign-Details: the sheet ingestion pipeline

    A shallow embedding of [src/lib/sheetUtils.ts] (CSV tokenizer and
    [fetchSheetData]) and of [src/lib/fieldMapping.ts] (the schema registry,
    [findColumnHeader] and [validateSheetStructure]), with the properties
    the specification states about them.

    Conventions of the model.
    - A JavaScript string is a [string]: a sequence of code units, each
      below 256.  [toLowerCase] and [trim] act as JavaScript's do on that
      range.
    - A JavaScript object used as a dictionary is a [gmap string string];
      an assignment [o[k] = v] is [obj_set].
    - [Array.prototype.findIndex] returns a [Z], with [-1] for no hit.
    - An exception is a value of [Thrown]; code that can throw lives in the
      [Exn] monad and [try]/[catch] is a [match] on the result. *)

From Stdlib Require Import ZArith List Ascii String Bool Lia.
From stdpp Require Import base option list strings gmap pretty.

Local Open Scope Z_scope.

(* ===================================================================== *)
(** ** JavaScript string primitives *)
(* ===================================================================== *)

Module JS.

(** The double-quote character, U+0022. *)
Definition dquote : ascii := "034"%char.
Definition comma : ascii := ","%char.
Definition newline : ascii := "010"%char.

(** White space stripped by [String.prototype.trim], among the code
    units below 256: TAB, LF, VT, FF, CR, SPACE and NBSP. *)
Definition isWhiteSpace (c : ascii) : bool :=
  let n := N_of_ascii c in
  ((9 <=? n) && (n <=? 13) || (n =? 32) || (n =? 160))%N.

Fixpoint trimStart (s : string) : string :=
  match s with
  | EmptyString => EmptyString
  | String c rest => if isWhiteSpace c then trimStart rest else s
  end.

Fixpoint trimEnd (s : string) : string :=
  match s with
  | EmptyString => EmptyString
  | String c rest =>
      match trimEnd rest with
      | EmptyString => if isWhiteSpace c then EmptyString else String c EmptyString
      | rest' => String c rest'
      end
  end.

Definition trim (s : string) : string := trimEnd (trimStart s).

(** [toLowerCase] on one code unit: A-Z, and the Latin-1 capitals
    U+00C0..U+00DE except the multiplication sign U+00D7. *)
Definition toLowerChar (c : ascii) : ascii :=
  let n := N_of_ascii c in
  if ((65 <=? n) && (n <=? 90)
      || (192 <=? n) && (n <=? 222) && negb (n =? 215))%N
  then ascii_of_N (n + 32) else c.

Fixpoint toLowerCase (s : string) : string :=
  match s with
  | EmptyString => EmptyString
  | String c rest => String (toLowerChar c) (toLowerCase rest)
  end.

(** [s.startsWith(p)] *)
Fixpoint startsWith (s p : string) {struct p} : bool :=
  match p, s with
  | EmptyString, _ => true
  | String _ _, EmptyString => false
  | String a p', String b s' => Ascii.eqb a b && startsWith s' p'
  end.

(** [s.includes(sub)] *)
Fixpoint includes (s sub : string) : bool :=
  startsWith s sub ||
  match s with
  | EmptyString => false
  | String _ rest => includes rest sub
  end.

(** [s.replace(/dq/g, '')], with dq the double-quote character. *)
Fixpoint stripQuotes (s : string) : string :=
  match s with
  | EmptyString => EmptyString
  | String c rest =>
      if Ascii.eqb c dquote then stripQuotes rest else String c (stripQuotes rest)
  end.

(** [s.split(sep)] for a separator of one code unit. *)
Fixpoint split (sep : ascii) (s : string) : list string :=
  match s with
  | EmptyString => [EmptyString]
  | String c rest =>
      if Ascii.eqb c sep then EmptyString :: split sep rest
      else match split sep rest with
           | [] => [String c EmptyString]
           | field :: fields => String c field :: fields
           end
  end.

(** Truthiness of a string: every string but the empty one. *)
Definition truthy (s : string) : bool := negb (String.eqb s "").

(** Truthiness of a value that is a string, [undefined] or [null], such
    as the result of [Array.prototype.find] on strings. *)
Definition truthyOpt (m : option string) : bool :=
  match m with
  | Some s => truthy s
  | None => false
  end.

(** [a || d] where [a] is a string or [undefined]/[null]. *)
Definition or_else (a : option string) (d : string) : string :=
  match a with
  | Some s => if truthy s then s else d
  | None => d
  end.

(** [arr.findIndex(p)] *)
Fixpoint findIndex_from {A} (p : A -> bool) (l : list A) (i : Z) : Z :=
  match l with
  | [] => -1
  | x :: rest => if p x then i else findIndex_from p rest (i + 1)
  end.

Definition findIndex {A} (p : A -> bool) (l : list A) : Z :=
  findIndex_from p l 0.

(** [arr.filter((_, idx) => p idx)] *)
Fixpoint filter_idx_from {A} (p : Z -> bool) (l : list A) (i : Z) : list A :=
  match l with
  | [] => []
  | x :: rest =>
      if p i then x :: filter_idx_from p rest (i + 1)
      else filter_idx_from p rest (i + 1)
  end.

Definition filter_idx {A} (p : Z -> bool) (l : list A) : list A :=
  filter_idx_from p l 0.

(** [arr[i]] for an index that is not negative; [None] is [undefined]. *)
Definition at_index {A} (l : list A) (i : Z) : option A :=
  if i <? 0 then None else l !! Z.to_nat i.

(** [o[k] = v] on an object created by an object literal, for a string
    [v]: the key [__proto__] reaches the setter inherited from
    [Object.prototype], which ignores a value that is neither an object
    nor [null]; every other key becomes (or overwrites) an own property. *)
Definition obj_set (k v : string) (o : gmap string string) : gmap string string :=
  if String.eqb k "__proto__" then o else <[k := v]> o.

End JS.

(** [s] between two double-quote characters, as a template literal
    writes it. *)
Definition quoted (s : string) : string :=
  String JS.dquote (s +:+ String JS.dquote "").

(* ===================================================================== *)
(** ** The CSV tokenizer, [src/lib/sheetUtils.ts] *)
(* ===================================================================== *)

(** The body of the [for] loop of [parseCSVRow], on the part of the row
    from position [i] on: [row] is that suffix, its head is [row[i]] and the
    head of its tail is [row[i + 1]]. *)
Fixpoint parseCSVRow_loop (row : string) (values : list string)
    (current : string) (inQuotes : bool) : list string :=
  match row with
  | EmptyString => values ++ [JS.trim current]
  | String char rest =>
      if Ascii.eqb char JS.dquote then
        match rest with
        | String nextChar rest' =>
            if Ascii.eqb nextChar JS.dquote
            then parseCSVRow_loop rest' values (current +:+ String JS.dquote "") inQuotes
            else parseCSVRow_loop rest values current (negb inQuotes)
        | EmptyString => parseCSVRow_loop rest values current (negb inQuotes)
        end
      else if Ascii.eqb char JS.comma && negb inQuotes then
        parseCSVRow_loop rest (values ++ [JS.trim current]) "" inQuotes
      else
        parseCSVRow_loop rest values (current +:+ String char "") inQuotes
  end.

Definition parseCSVRow (row : string) : list string :=
  parseCSVRow_loop row [] "" false.

(* ===================================================================== *)
(** ** The schema registry, [src/lib/fieldMapping.ts] *)
(* ===================================================================== *)

Inductive FieldType : Set :=
  | text | date | number | select | textarea | file | platforms.

Record FormField : Set := mkField {
  formKey : string;
  displayName : string;
  required : bool;
  type : FieldType;
  options : option (list string)
}.

Definition FORM_FIELDS : list FormField := [
  mkField "campaignName" "Campaign Name" true text None;
  mkField "influencersFollowers" "Influencers Followers" true text None;
  mkField "campaignType" "Campaign Type" true select
    (Some ["Brand Collaboration"; "Product Launch"; "Event Promotion";
           "Content Creation"; "Other"]);
  mkField "startDate" "Start Date" true date None;
  mkField "brandName" "Brand Name" true text None;
  mkField "endDate" "End Date" true date None;
  mkField "niche" "Niche" true text None;
  mkField "priority" "Priority" true select (Some ["High"; "Medium"; "Low"]);
  mkField "budget" "Budget" true number None;
  mkField "notes" "Notes" false textarea None;
  mkField "deliverables" "Deliverables" true textarea None;
  mkField "platforms" "Platforms" true platforms
    (Some ["Instagram"; "Facebook"; "YouTube"]);
  mkField "attachment" "Attachment" false file None;
  mkField "timestamp" "Submission Date" false date None
].

Definition EXPECTED_SHEET_HEADERS : list string := map displayName FORM_FIELDS.

Definition FIELD_MAPPING : gmap string (list string) := list_to_map [
  ("Campaign Name", ["campaign name"; "campaign_name"; "campaignname"; "campaign"]);
  ("Influencers Followers",
     ["influencers followers"; "influencers_followers"; "influencersfollowers";
      "followers"; "influencer count"]);
  ("Campaign Type", ["campaign type"; "campaign_type"; "campaigntype"; "type"]);
  ("Start Date", ["start date"; "start_date"; "startdate"; "start"; "campaign start"]);
  ("Brand Name", ["brand name"; "brand_name"; "brandname"; "brand"]);
  ("End Date", ["end date"; "end_date"; "enddate"; "end"; "campaign end"]);
  ("Niche", ["niche"; "category"; "industry"]);
  ("Priority", ["priority"; "urgency"; "level"]);
  ("Budget", ["budget"; "amount"; "cost"; "price"]);
  ("Notes", ["notes"; "comments"; "description"; "additional info"]);
  ("Deliverables", ["deliverables"; "requirements"; "scope"; "what to deliver"]);
  ("Platforms", ["platforms"; "social media"; "channels"; "platform"]);
  ("Attachment", ["attachment"; "file"; "document"; "upload"]);
  ("Submission Date",
     ["submission date"; "submission_date"; "submissiondate"; "timestamp";
      "created"; "date submitted"])
].

(** The test of the variation tier, for one header and one variation. *)
Definition variationHit (variation header : string) : bool :=
  JS.includes (JS.toLowerCase header) (JS.toLowerCase variation)
  || JS.includes (JS.toLowerCase variation) (JS.toLowerCase header).

(** The [for (const variation of variations)] loop of [findColumnHeader]. *)
Fixpoint findVariation (variations sheetHeaders : list string) : option string :=
  match variations with
  | [] => None
  | variation :: more =>
      let match_ := List.find (variationHit variation) sheetHeaders in
      if JS.truthyOpt match_ then match_ else findVariation more sheetHeaders
  end.

Definition findColumnHeader (formFieldName : string) (sheetHeaders : list string)
    : option string :=
  match List.find (fun f => String.eqb (formKey f) formFieldName) FORM_FIELDS with
  | None => None
  | Some field =>
      let displayName := displayName field in
      if existsb (String.eqb displayName) sheetHeaders then Some displayName
      else
        let exactMatch :=
          List.find (fun header =>
            String.eqb (JS.toLowerCase header) (JS.toLowerCase displayName))
            sheetHeaders in
        if JS.truthyOpt exactMatch then exactMatch
        else
          let variations := default [] (FIELD_MAPPING !! displayName) in
          findVariation variations sheetHeaders
  end.

Record ValidationResult := mkValidation {
  isValid : bool;
  missingFields : list string;
  extraFields : list string;
  suggestions : gmap string string
}.

(** First [forEach] of [validateSheetStructure]: one step on a field. *)
Definition checkMissing (sheetHeaders : list string)
    (missing : list string) (field : FormField) : list string :=
  if required field then
    if negb (JS.truthyOpt (findColumnHeader (formKey field) sheetHeaders))
    then missing ++ [displayName field]
    else missing
  else missing.

(** Second [forEach] of [validateSheetStructure]: one step on a header. *)
Definition checkExtra (st : list string * gmap string string) (header : string)
    : list string * gmap string string :=
  let '(extra, sugg) := st in
  let isExpected :=
    existsb (fun field => String.eqb (displayName field) header) FORM_FIELDS in
  if negb isExpected then
    let field :=
      List.find (fun f =>
        JS.includes (JS.toLowerCase (displayName f)) (JS.toLowerCase header)
        || JS.includes (JS.toLowerCase header) (JS.toLowerCase (displayName f)))
        FORM_FIELDS in
    (extra ++ [header],
     match field with
     | Some f => JS.obj_set header (displayName f) sugg
     | None => sugg
     end)
  else st.

Definition validateSheetStructure (sheetHeaders : list string) : ValidationResult :=
  let missing := fold_left (checkMissing sheetHeaders) FORM_FIELDS [] in
  let '(extra, sugg) := fold_left checkExtra sheetHeaders ([], ∅) in
  mkValidation (Nat.eqb (length missing) 0) missing extra sugg.



(* ===================================================================== *)
(** ** Exceptions *)
(* ===================================================================== *)

(** What a [throw] or a rejected promise carries: an [Error] object with
    its message, or any other value. *)
Inductive Thrown : Set :=
  | ErrorObject (message : string)
  | OtherValue.

Inductive Exn (A : Type) : Type :=
  | Return (a : A)
  | Throw (t : Thrown).
Arguments Return {A} a.
Arguments Throw {A} t.

#[global] Instance Exn_ret : MRet Exn := fun A a => Return a.
#[global] Instance Exn_bind : MBind Exn := fun A B k m =>
  match m with
  | Return a => k a
  | Throw t => Throw t
  end.

(** [throw new Error(msg)] *)
Definition throwError {A} (msg : string) : Exn A := Throw (ErrorObject msg).

(* ===================================================================== *)
(** ** [fetchSheetData], [src/lib/sheetUtils.ts] *)
(* ===================================================================== *)

Record SheetConfig : Set := mkConfig {
  sheetId : string;
  gid : option string;
  name : string
}.

(** The part of a [Response] the function reads; [body] is what
    [response.text()] resolves to. *)
Record Response : Set := mkResponse {
  ok : bool;
  status : Z;
  url : string;
  body : string
}.

Record FetchResult := mkResult {
  data : list (gmap string string);
  headers : list string;
  error : option string
}.

Definition csvUrl (config : SheetConfig) : string :=
  if JS.truthyOpt (gid config) then
    "https://docs.google.com/spreadsheets/d/" +:+ sheetId config
      +:+ "/export?format=csv&gid=" +:+ default "" (gid config)
  else
    "https://docs.google.com/spreadsheets/d/" +:+ sheetId config
      +:+ "/export?format=csv".

Definition isEmailTemplate (h : string) : bool :=
  JS.includes (JS.toLowerCase h) "email template"
  || JS.includes (JS.toLowerCase h) "emailtemplate".

Definition isIdColumn (h : string) : bool :=
  String.eqb (JS.toLowerCase h) "id"
  || String.eqb (JS.toLowerCase h) "campaign id"
  || String.eqb (JS.toLowerCase h) "record id".

Definition isSheetId (h : string) : bool :=
  JS.includes (JS.toLowerCase h) "sheet id"
  || JS.includes (JS.toLowerCase h) "sheetid".

(** The predicate of the two [filter((_, idx) => ...)] calls. *)
Definition keepColumn (emailTemplateIndex idColumnIndex sheetIdIndex idx : Z) : bool :=
  negb (idx =? emailTemplateIndex) && negb (idx =? idColumnIndex)
  && negb (idx =? sheetIdIndex).

(** [filteredHeaders.forEach((header, idx) => ...)], from index [idx] on,
    on the pair of [rowData] and [rowKey]. *)
Fixpoint mapHeaders (filteredHeaders : list string) (idx : nat)
    (filteredValues : list string) (st : gmap string string * string)
    : gmap string string * string :=
  match filteredHeaders with
  | [] => st
  | header :: more =>
      let '(rowData, rowKey) := st in
      let value := JS.or_else (filteredValues !! idx) "" in
      let mappedHeader :=
        JS.or_else (findColumnHeader header EXPECTED_SHEET_HEADERS) header in
      mapHeaders more (S idx) filteredValues
        (JS.obj_set mappedHeader value rowData, rowKey +:+ value)
  end.

(** The empty-row test of the loop. *)
Definition isBlank (v : string) : bool :=
  negb (JS.truthy v) || String.eqb (JS.trim v) "".

(** [parseCSVRow(rows[i]).map(v => v.replace(/dq/g, ''))] *)
Definition rowValues (row : string) : list string :=
  map JS.stripQuotes (parseCSVRow row).

(** [sheetIdIndex !== -1 ? values[sheetIdIndex] : ''] *)
Definition sheetIdValueOf (sheetIdIndex : Z) (values : list string) : option string :=
  if negb (sheetIdIndex =? -1) then JS.at_index values sheetIdIndex else Some "".

(** The values of the columns that are not excluded. *)
Definition retained (emailTemplateIndex idColumnIndex sheetIdIndex : Z)
    (values : list string) : list string :=
  JS.filter_idx (keepColumn emailTemplateIndex idColumnIndex sheetIdIndex) values.

(** The record of one data row and its duplicate-detection key, or [None]
    when the row is skipped as empty. *)
Definition buildRow (emailTemplateIndex idColumnIndex sheetIdIndex : Z)
    (filteredHeaders : list string) (row : string)
    : option (gmap string string * string) :=
  let values := rowValues row in
  let sheetIdValue := sheetIdValueOf sheetIdIndex values in
  let filteredValues :=
    retained emailTemplateIndex idColumnIndex sheetIdIndex values in
  if forallb isBlank filteredValues then None
  else
    let '(rowData, rowKey) := mapHeaders filteredHeaders 0 filteredValues (∅, "") in
    let rowData :=
      if JS.truthyOpt sheetIdValue
      then JS.obj_set "_sheetId" (default "" sheetIdValue) rowData
      else rowData in
    Some (rowData, rowKey).

(** One iteration of [for (let i = 1; i < rows.length; i++)], on the pair
    of [seen] and [parsedData]. *)
Definition parseDataRow (emailTemplateIndex idColumnIndex sheetIdIndex : Z)
    (filteredHeaders : list string)
    (st : gset string * list (gmap string string)) (row : string)
    : gset string * list (gmap string string) :=
  let '(seen, parsedData) := st in
  match buildRow emailTemplateIndex idColumnIndex sheetIdIndex filteredHeaders row with
  | None => st
  | Some (rowData, rowKey) =>
      if bool_decide (rowKey ∈ seen) then st
      else ({[rowKey]} ∪ seen, parsedData ++ [rowData])
  end.

(** The part of [fetchSheetData] after the payload checks: from the
    non-blank lines to [parsedData] and [filteredHeaders]. *)
Definition parseRows (rows : list string) : list (gmap string string) * list string :=
  let headerRow := rowValues (hd "" rows) in
  let emailTemplateIndex := JS.findIndex isEmailTemplate headerRow in
  let idColumnIndex := JS.findIndex isIdColumn headerRow in
  let sheetIdIndex := JS.findIndex isSheetId headerRow in
  let filteredHeaders :=
    JS.filter_idx (keepColumn emailTemplateIndex idColumnIndex sheetIdIndex) headerRow in
  let '(_, parsedData) :=
    fold_left
      (parseDataRow emailTemplateIndex idColumnIndex sheetIdIndex filteredHeaders)
      (tl rows) (∅, []) in
  (parsedData, filteredHeaders).

(** [csvText.split('\n').filter(row => row.trim())] *)
Definition nonBlankLines (csvText : string) : list string :=
  List.filter (fun row => JS.truthy (JS.trim row)) (JS.split JS.newline csvText).

(** The [try] block of [fetchSheetData]; [fetch] is the environment's
    [fetch], which resolves to a response or rejects. *)
Definition fetchSheetData_try (fetch : string -> Exn Response) (config : SheetConfig)
    : Exn (list (gmap string string) * list string) :=
  response ← fetch (csvUrl config);
  if negb (ok response) then
    if (status response =? 302) || (status response =? 301)
       || JS.includes (url response) "accounts.google.com"
    then throwError ("Sheet " +:+ quoted (name config)
           +:+ " appears to be private or inaccessible. Please ensure the sheet is publicly viewable.")
    else throwError ("Failed to fetch data from " +:+ name config
           +:+ ". Status: " +:+ pretty (status response))
  else
    let csvText := body response in
    if JS.startsWith (JS.trim csvText) "<HTML>"
       || JS.startsWith (JS.trim csvText) "<!DOCTYPE"
    then throwError ("Sheet " +:+ quoted (name config)
           +:+ " appears to be private. Please make the sheet publicly viewable.")
    else
      let rows := nonBlankLines csvText in
      if Nat.eqb (length rows) 0 then
        throwError ("No data found in " +:+ name config)
      else mret (parseRows rows).

(** [fetchSheetData]: the [try] block and its [catch]. *)
Definition fetchSheetData (fetch : string -> Exn Response) (config : SheetConfig)
    : FetchResult :=
  match fetchSheetData_try fetch config with
  | Return (parsedData, filteredHeaders) => mkResult parsedData filteredHeaders None
  | Throw (ErrorObject message) => mkResult [] [] (Some message)
  | Throw OtherValue => mkResult [] [] (Some "Unknown error occurred")
  end.

Definition okResponse (csvText : string) : Response :=
  mkResponse true 200 "" csvText.



(* ===================================================================== *)
(** ** Reference definitions *)
(* ===================================================================== *)

(** The aliases of a canonical field. *)
Definition variantNames (field : FormField) : list string :=
  default [] (FIELD_MAPPING !! displayName field).

(** The resolver as the specification words it (section 4.2), tier by
    tier, for comparison with [findColumnHeader]. *)
Module SpecResolver.

(** Tier 1: an observed header equal to the display name. *)
Definition exact (field : FormField) (observed : list string) : option string :=
  List.find (String.eqb (displayName field)) observed.

(** Tier 2: the first observed header equal to it ignoring case. *)
Definition caseInsensitive (field : FormField) (observed : list string) : option string :=
  List.find (fun h =>
    String.eqb (JS.toLowerCase h) (JS.toLowerCase (displayName field))) observed.

(** Tier 3: aliases in declaration order; for each, the first observed
    header whose lowercased text contains the alias or is contained in it. *)
Fixpoint firstAlias (aliases observed : list string) : option string :=
  match aliases with
  | [] => None
  | alias :: more =>
      match List.find (fun h =>
              JS.includes (JS.toLowerCase h) alias
              || JS.includes alias (JS.toLowerCase h)) observed with
      | Some h => Some h
      | None => firstAlias more observed
      end
  end.

Definition variant (field : FormField) (observed : list string) : option string :=
  firstAlias (variantNames field) observed.

(** First hit wins. *)
Definition resolve (field : FormField) (observed : list string) : option string :=
  match exact field observed with
  | Some h => Some h
  | None =>
      match caseInsensitive field observed with
      | Some h => Some h
      | None => variant field observed
      end
  end.

End SpecResolver.

(** A header is expected when it is, letter for letter, a display name. *)
Definition isExpected (header : string) : bool :=
  existsb (fun field => String.eqb (displayName field) header) FORM_FIELDS.

(** The payload test of [fetchSheetData]: the text starts, after
    trimming, with an HTML marker. *)
Definition isHtml (csvText : string) : bool :=
  JS.startsWith (JS.trim csvText) "<HTML>"
  || JS.startsWith (JS.trim csvText) "<!DOCTYPE".

(** The response makes [fetchSheetData] throw: it is not [ok], or its
    payload is HTML, or it has no non-blank line. *)
Definition classificationFails (response : Response) : bool :=
  negb (ok response) || isHtml (body response)
  || Nat.eqb (length (nonBlankLines (body response))) 0.

(** The tier through which a header was found. *)
Inductive Tier : Set := Exact | CaseInsensitive | Variant.

#[global] Instance Tier_eq_dec : EqDecision Tier.
Proof. solve_decision. Defined.

(** [findColumnHeader] with each [return] tagged by the tier it belongs
    to: the same tests in the same order. *)
Definition findColumnHeaderTier (formFieldName : string) (sheetHeaders : list string)
    : option (Tier * string) :=
  match List.find (fun f => String.eqb (formKey f) formFieldName) FORM_FIELDS with
  | None => None
  | Some field =>
      let displayName := displayName field in
      if existsb (String.eqb displayName) sheetHeaders then Some (Exact, displayName)
      else
        let exactMatch :=
          List.find (fun header =>
            String.eqb (JS.toLowerCase header) (JS.toLowerCase displayName))
            sheetHeaders in
        if JS.truthyOpt exactMatch then pair CaseInsensitive <$> exactMatch
        else
          let variations := default [] (FIELD_MAPPING !! displayName) in
          pair Variant <$> findVariation variations sheetHeaders
  end.

(** The columns found in a header line: the three excluded positions and
    the retained headers, as [fetchSheetData] computes them. *)
Definition emailTemplateIndexOf (headerLine : string) : Z :=
  JS.findIndex isEmailTemplate (rowValues headerLine).
Definition idColumnIndexOf (headerLine : string) : Z :=
  JS.findIndex isIdColumn (rowValues headerLine).
Definition sheetIdIndexOf (headerLine : string) : Z :=
  JS.findIndex isSheetId (rowValues headerLine).
Definition filteredHeadersOf (headerLine : string) : list string :=
  JS.filter_idx
    (keepColumn (emailTemplateIndexOf headerLine) (idColumnIndexOf headerLine)
       (sheetIdIndexOf headerLine))
    (rowValues headerLine).

(** The retained values of a data line under a header line. *)
Definition retainedOf (headerLine row : string) : list string :=
  retained (emailTemplateIndexOf headerLine) (idColumnIndexOf headerLine)
    (sheetIdIndexOf headerLine) (rowValues row).

(** The record and key of a data line under a header line. *)
Definition buildRowOf (headerLine row : string) : option (gmap string string * string) :=
  buildRow (emailTemplateIndexOf headerLine) (idColumnIndexOf headerLine)
    (sheetIdIndexOf headerLine) (filteredHeadersOf headerLine) row.

(** The loop over the data lines, from a given [seen] and [parsedData]. *)
Definition parseDataRows (headerLine : string) (dataRows : list string)
    (st : gset string * list (gmap string string))
    : gset string * list (gmap string string) :=
  fold_left
    (parseDataRow (emailTemplateIndexOf headerLine) (idColumnIndexOf headerLine)
       (sheetIdIndexOf headerLine) (filteredHeadersOf headerLine))
    dataRows st.

(** [value = filteredValues[idx] || ''] for the header positions
    [idx, idx + 1, ...]: the values a record is built from. *)
Fixpoint mappedValues (filteredHeaders : list string) (idx : nat)
    (filteredValues : list string) : list string :=
  match filteredHeaders with
  | [] => []
  | _ :: more =>
      JS.or_else (filteredValues !! idx) "" :: mappedValues more (S idx) filteredValues
  end.

(** Concatenation of a list of strings. *)
Definition concatStrings (l : list string) : string :=
  fold_right String.append "" l.

(** The composite key of a data line under a header line: the
    concatenation, in header order, of the values that go into its
    record. *)
Definition rowKeyOf (headerLine row : string) : string :=
  concatStrings
    (mappedValues (filteredHeadersOf headerLine) 0 (retainedOf headerLine row)).

(* ===================================================================== *)
(** ** Further code of the repository *)
(* ===================================================================== *)

(** [arr.join(sep)] on an array of strings. *)
Fixpoint joinStrings (sep : string) (l : list string) : string :=
  match l with
  | [] => ""
  | [x] => x
  | x :: rest => x +:+ sep +:+ joinStrings sep rest
  end.

(** Number of occurrences of a code unit in a string. *)
Fixpoint countChar (c : ascii) (s : string) : nat :=
  match s with
  | EmptyString => 0%nat
  | String d rest => ((if Ascii.eqb d c then 1 else 0) + countChar c rest)%nat
  end.

(** The first [n] code units of a string: [s.substring(0, n)]. *)
Fixpoint takeString (n : nat) (s : string) : string :=
  match n, s with
  | O, _ => EmptyString
  | S _, EmptyString => EmptyString
  | S n', String c rest => String c (takeString n' rest)
  end.

(** *** [src/lib/fieldMapping.ts]: the template header and sample row *)

Definition generateCSVHeader : string := joinStrings "," EXPECTED_SHEET_HEADERS.

(** [generateSampleData()]: the entries of the object literal in the order
    they are written, which is the order of [Object.values]; [today] is
    what [new Date().toLocaleDateString()] returns. *)
Definition generateSampleData (today : string) : list (string * string) := [
  ("Campaign Name", "Sample Campaign");
  ("Influencers Followers", "10K-50K");
  ("Campaign Type", "Brand Collaboration");
  ("Start Date", "12/01/2024");
  ("Brand Name", "Sample Brand");
  ("End Date", "12/31/2024");
  ("Niche", "Fashion");
  ("Priority", "High");
  ("Budget", "5000");
  ("Notes", "Sample campaign notes");
  ("Deliverables", "3 Instagram posts, 2 Stories");
  ("Platforms", "Instagram, Facebook");
  ("Attachment", "campaign_brief.pdf");
  ("Submission Date", today)
].

(** *** [src/lib/sheetTemplate.ts] *)

(** The [map] callback of [generateCSVContent], on a string value: a
    value with a comma is put between double quotes. *)
Definition csvQuote (value : string) : string :=
  if JS.includes value "," then quoted value else value.

(** The sample row of [generateCSVContent]. *)
Definition sampleRow (today : string) : string :=
  joinStrings "," (map csvQuote (map snd (generateSampleData today))).

Definition generateCSVContent (today : string) : string :=
  generateCSVHeader +:+ String JS.newline (sampleRow today).

(** The character class [[a-zA-Z0-9-_]]. *)
Definition isIdChar (c : ascii) : bool :=
  let n := N_of_ascii c in
  ((97 <=? n) && (n <=? 122) || (65 <=? n) && (n <=? 90)
   || (48 <=? n) && (n <=? 57) || (n =? 45) || (n =? 95))%N.

(** The longest run of class characters at the start of a string: what
    the greedy group [([a-zA-Z0-9-_]+)] takes there. *)
Fixpoint takeIdChars (s : string) : string :=
  match s with
  | EmptyString => EmptyString
  | String c rest => if isIdChar c then String c (takeIdChars rest) else EmptyString
  end.

(** What is left of [s] after the prefix [p], if [s] starts with [p]. *)
Fixpoint afterPrefix (s p : string) {struct p} : option string :=
  match p with
  | EmptyString => Some s
  | String a p' =>
      match s with
      | EmptyString => None
      | String b s' => if Ascii.eqb a b then afterPrefix s' p' else None
      end
  end.

(** A match of the literal [lit] followed by the group, tried at the
    start of [s]: the group needs one character at least. *)
Definition matchHere (lit s : string) : option string :=
  match afterPrefix s lit with
  | Some rest => if JS.truthy (takeIdChars rest) then Some (takeIdChars rest) else None
  | None => None
  end.

(** [s.match(/lit([a-zA-Z0-9-_]+)/)]: the group of the leftmost match. *)
Fixpoint matchAfter (lit s : string) : option string :=
  match matchHere lit s with
  | Some id => Some id
  | None =>
      match s with
      | EmptyString => None
      | String _ rest => matchAfter lit rest
      end
  end.

(** [s.match(/^([a-zA-Z0-9-_]+)$/)] *)
Definition matchWhole (s : string) : option string :=
  if JS.truthy s && String.eqb (takeIdChars s) s then Some s else None.

(** [extractSheetId]: the three patterns in order, the first match
    returning its group. *)
Definition extractSheetId (url : string) : option string :=
  match matchAfter "/spreadsheets/d/" url with
  | Some id => Some id
  | None =>
      match matchAfter "/d/" url with
      | Some id => Some id
      | None => matchWhole url
      end
  end.

(** *** [src/lib/sheetUtils.ts]: [formatCellValue] *)

Section FormatCellValue.

(** [new Date(s)]: the date's [toLocaleDateString()] when
    [date.getTime()] is not [NaN], or nothing. *)
Variable dateToLocaleString : string -> option string.

(** [parseFloat(s)]: the number's [toLocaleString()] when it is not
    [NaN], or nothing. *)
Variable floatToLocaleString : string -> option string.

(** [formatCellValue] on a string value. *)
Definition formatCellValue (value header : string) : string :=
  let strValue := JS.trim value in
  if negb (JS.truthy strValue) then ""
  else
    match (if JS.includes (JS.toLowerCase header) "date" && JS.truthy strValue
           then dateToLocaleString strValue else None) with
    | Some formatted => formatted
    | None =>
        match (if JS.includes (JS.toLowerCase header) "budget"
                  || JS.includes (JS.toLowerCase header) "price"
               then floatToLocaleString strValue else None) with
        | Some formatted => "$" +:+ formatted
        | None =>
            if (50 <? String.length strValue)%nat
            then takeString 47 strValue +:+ "..."
            else strValue
        end
    end.

End FormatCellValue.

(** *** [src/app/dashboard/page.tsx]: the page's own copy of the loop *)

Module Dashboard.

(** [filteredHeaders.forEach((header, idx) => ...)] of the page: the
    value is stored under the header itself. *)
Fixpoint mapHeaders (filteredHeaders : list string) (idx : nat)
    (filteredValues : list string) (st : gmap string string * string)
    : gmap string string * string :=
  match filteredHeaders with
  | [] => st
  | header :: more =>
      let '(rowData, rowKey) := st in
      let value := JS.or_else (filteredValues !! idx) "" in
      mapHeaders more (S idx) filteredValues
        (JS.obj_set header value rowData, rowKey +:+ value)
  end.

Definition buildRow (emailTemplateIndex idColumnIndex sheetIdIndex : Z)
    (filteredHeaders : list string) (row : string)
    : option (gmap string string * string) :=
  let values := rowValues row in
  let sheetIdValue := sheetIdValueOf sheetIdIndex values in
  let filteredValues :=
    retained emailTemplateIndex idColumnIndex sheetIdIndex values in
  if forallb isBlank filteredValues then None
  else
    let '(rowData, rowKey) := mapHeaders filteredHeaders 0 filteredValues (∅, "") in
    let rowData :=
      if JS.truthyOpt sheetIdValue
      then JS.obj_set "_sheetId" (default "" sheetIdValue) rowData
      else rowData in
    Some (rowData, rowKey).

Definition parseDataRow (emailTemplateIndex idColumnIndex sheetIdIndex : Z)
    (filteredHeaders : list string)
    (st : gset string * list (gmap string string)) (row : string)
    : gset string * list (gmap string string) :=
  let '(seen, parsedData) := st in
  match buildRow emailTemplateIndex idColumnIndex sheetIdIndex filteredHeaders row with
  | None => st
  | Some (rowData, rowKey) =>
      if bool_decide (rowKey ∈ seen) then st
      else ({[rowKey]} ∪ seen, parsedData ++ [rowData])
  end.

(** From the non-blank lines to what the page passes to [setData] and
    [setHeaders]. *)
Definition parseRows (rows : list string) : list (gmap string string) * list string :=
  let headerRow := rowValues (hd "" rows) in
  let emailTemplateIndex := JS.findIndex isEmailTemplate headerRow in
  let idColumnIndex := JS.findIndex isIdColumn headerRow in
  let sheetIdIndex := JS.findIndex isSheetId headerRow in
  let filteredHeaders :=
    JS.filter_idx (keepColumn emailTemplateIndex idColumnIndex sheetIdIndex) headerRow in
  let '(_, parsedData) :=
    fold_left
      (parseDataRow emailTemplateIndex idColumnIndex sheetIdIndex filteredHeaders)
      (tl rows) (∅, []) in
  (parsedData, filteredHeaders).

End Dashboard.

(** *** Auxiliary definitions for the statements below *)

(** A string that is empty or starts with a character that is not white
    space. *)
Definition noLeadingSpace (s : string) : Prop :=
  match s with
  | EmptyString => True
  | String c _ => JS.isWhiteSpace c = false
  end.

(** A state of the loop over the data rows, after the rows [processed]:
    the records kept so far are those of some of these rows, in the order
    of the rows, whose keys are pairwise distinct and are the keys in
    [seen]. *)
Definition keptInvariant (headerLine : string) (processed : list string)
    (st : gset string * list (gmap string string)) : Prop :=
  exists keptRows : list string,
    sublist keptRows processed
    /\ NoDup (map (rowKeyOf headerLine) keptRows)
    /\ (forall k, k ∈ st.1 <-> In k (map (rowKeyOf headerLine) keptRows))
    /\ Forall2 (fun rowData row =>
                  buildRowOf headerLine row = Some (rowData, rowKeyOf headerLine row))
               st.2 keptRows.

(** A string of white space only. *)
Fixpoint allWhiteSpace (s : string) : bool :=
  match s with
  | EmptyString => true
  | String c rest => JS.isWhiteSpace c && allWhiteSpace rest
  end.

(** The key under which [fetchSheetData] stores the value of a header. *)
Definition mappedHeader (header : string) : string :=
  JS.or_else (findColumnHeader header EXPECTED_SHEET_HEADERS) header.

(** The field [validateSheetStructure] suggests for a header. *)
Definition suggestionFor (header : string) : option string :=
  displayName <$>
    List.find (fun f =>
      JS.includes (JS.toLowerCase (displayName f)) (JS.toLowerCase header)
      || JS.includes (JS.toLowerCase header) (JS.toLowerCase (displayName f)))
      FORM_FIELDS.

(* ===================================================================== *)
(** ** Strings: auxiliary facts *)
(* ===================================================================== *)

Lemma append_cons (c : ascii) (s t : string) :
  String c s +:+ t = String c (s +:+ t).
Proof. reflexivity. Qed.

Lemma append_empty_l (s : string) : "" +:+ s = s.
Proof. reflexivity. Qed.

Lemma append_empty_r (s : string) : s +:+ "" = s.
Proof.
  induction s as [|c s IH]; [reflexivity|].
  now rewrite append_cons, IH.
Qed.

Lemma append_assoc (a b c : string) : (a +:+ b) +:+ c = a +:+ (b +:+ c).
Proof.
  induction a as [|x a IH]; [reflexivity|].
  now rewrite !append_cons, IH.
Qed.

Lemma split_not_nil (sep : ascii) (s : string) : JS.split sep s <> [].
Proof.
  destruct s as [|c s]; simpl; [discriminate|].
  destruct (Ascii.eqb c sep); [discriminate|].
  destruct (JS.split sep s); discriminate.
Qed.

Lemma startsWith_single (c d : ascii) (s : string) :
  JS.startsWith (String c s) (String d "") = Ascii.eqb d c.
Proof. cbn [JS.startsWith]. apply andb_true_r. Qed.

Lemma includes_cons_false (c : ascii) (s sub : string) :
  JS.includes (String c s) sub = false ->
  JS.startsWith (String c s) sub = false /\ JS.includes s sub = false.
Proof. simpl JS.includes. intros H. apply orb_false_iff in H. exact H. Qed.

(** The empty string is included in every string. *)
Lemma includes_empty (s : string) : JS.includes s "" = true.
Proof. destruct s; reflexivity. Qed.

Lemma truthy_true (s : string) : JS.truthy s = true <-> s <> "".
Proof.
  unfold JS.truthy. rewrite negb_true_iff. split.
  - intros H ->. discriminate.
  - intros H. apply String.eqb_neq. exact H.
Qed.

(* ===================================================================== *)
(** ** The tokenizer *)
(* ===================================================================== *)

(** Outside quotes and with no double quote ahead, the loop splits at
    the commas and trims. *)
Lemma parseCSVRow_loop_no_quote (row : string) :
  forall (values : list string) (current : string),
    JS.includes row (String JS.dquote "") = false ->
    parseCSVRow_loop row values current false
    = values ++ match JS.split JS.comma row with
                | [] => []
                | field :: fields => JS.trim (current +:+ field) :: map JS.trim fields
                end.
Proof.
  induction row as [|c rest IH]; intros values current Hq.
  - simpl. now rewrite append_empty_r.
  - apply includes_cons_false in Hq. destruct Hq as [Hc Hrest].
    assert (Hne : Ascii.eqb c JS.dquote = false).
    { rewrite startsWith_single in Hc. now rewrite Ascii.eqb_sym. }
    cbn [parseCSVRow_loop JS.split]. rewrite Hne.
    pose proof (split_not_nil JS.comma rest) as Hnil.
    destruct (Ascii.eqb c JS.comma) eqn:Hcomma; cbn [andb negb].
    + rewrite (IH _ _ Hrest). destruct (JS.split JS.comma rest) as [|f fs]; [congruence|].
      rewrite append_empty_r, append_empty_l. cbn [map].
      now rewrite <- app_assoc.
    + rewrite (IH _ _ Hrest). destruct (JS.split JS.comma rest) as [|f fs]; [congruence|].
      now rewrite append_assoc, append_cons, append_empty_l.
Qed.

(** C1. On every line without a double-quote character [parseCSVRow]
    returns the comma-separated fields, each trimmed; a comma inside a
    quoted region does not delimit; a doubled quote inside a quoted region
    yields one literal quote. *)
Theorem parseCSVRow_reference :
  (forall line : string,
      JS.includes line (String JS.dquote "") = false ->
      parseCSVRow line = map JS.trim (JS.split JS.comma line))
  /\ parseCSVRow ("a," +:+ quoted "b,c" +:+ ",d") = ["a"; "b,c"; "d"]
  /\ parseCSVRow ("a," +:+ quoted ("b" +:+ String JS.dquote (String JS.dquote "c")) +:+ ",d")
     = ["a"; "b" +:+ String JS.dquote "c"; "d"].
Proof.
  split; [|split; reflexivity].
  intros line Hq. unfold parseCSVRow.
  rewrite (parseCSVRow_loop_no_quote line [] "" Hq).
  pose proof (split_not_nil JS.comma line) as Hnil.
  destruct (JS.split JS.comma line); [congruence | reflexivity].
Qed.

Lemma parseCSVRow_reference_witness :
  JS.includes " a , b c,, d " (String JS.dquote "") = false
  /\ parseCSVRow " a , b c,, d " = ["a"; "b c"; ""; "d"].
Proof.
  split; [reflexivity|].
  rewrite (proj1 parseCSVRow_reference " a , b c,, d " eq_refl). reflexivity.
Defined.

(** C3, the claim at its example: the line [a], two double quotes, [b]
    does not yield the single field [ab]. *)
Lemma parseCSVRow_doubled_quote_outside_not_dropped :
  parseCSVRow ("a" +:+ String JS.dquote (String JS.dquote "b")) <> ["ab"].
Proof. vm_compute. discriminate. Qed.

(** C3, amended. Outside quotes, a double quote that is not followed by
    another one turns the flag on and emits nothing; a double quote
    followed by another one emits one literal quote and skips both,
    whatever the flag; so the line [a], two double quotes, [b] yields the
    single field [a], double quote, [b]. *)
Theorem parseCSVRow_quote_rules :
  (forall (rest : string) (values : list string) (current : string),
      JS.startsWith rest (String JS.dquote "") = false ->
      parseCSVRow_loop (String JS.dquote rest) values current false
      = parseCSVRow_loop rest values current true)
  /\ (forall (rest : string) (values : list string) (current : string)
             (inQuotes : bool),
      parseCSVRow_loop (String JS.dquote (String JS.dquote rest)) values current inQuotes
      = parseCSVRow_loop rest values (current +:+ String JS.dquote "") inQuotes)
  /\ parseCSVRow ("a" +:+ String JS.dquote (String JS.dquote "b"))
     = ["a" +:+ String JS.dquote "b"].
Proof.
  split; [|split; reflexivity].
  intros rest values current Hs.
  destruct rest as [|c rest]; [reflexivity|].
  cbn [parseCSVRow_loop]. change (Ascii.eqb JS.dquote JS.dquote) with true. cbv iota.
  rewrite startsWith_single, Ascii.eqb_sym in Hs.
  now rewrite Hs.
Qed.

Lemma parseCSVRow_quote_rules_witness :
  JS.startsWith "b,c" (String JS.dquote "") = false
  /\ parseCSVRow_loop (String JS.dquote "b,c") [] "" false
     = parseCSVRow_loop "b,c" [] "" true.
Proof.
  split; [reflexivity|].
  exact (proj1 parseCSVRow_quote_rules "b,c" [] "" eq_refl).
Defined.

(* ===================================================================== *)
(** ** The schema registry and the resolver *)
(* ===================================================================== *)

Lemma find_ext {A} (p p' : A -> bool) (l : list A) :
  (forall x, p x = p' x) -> List.find p l = List.find p' l.
Proof.
  intros E. induction l as [|x l IH]; [reflexivity|].
  cbn [List.find]. now rewrite E, IH.
Qed.

Lemma find_eqb (d : string) (l : list string) :
  List.find (String.eqb d) l = if existsb (String.eqb d) l then Some d else None.
Proof.
  induction l as [|x l IH]; [reflexivity|].
  cbn [List.find existsb]. destruct (String.eqb_spec d x) as [->|_]; [reflexivity|].
  exact IH.
Qed.

(** A header found in a list without empty header passes the test
    [if (match)]. *)
Lemma truthyOpt_find (p : string -> bool) (l : list string) :
  ~ In "" l ->
  JS.truthyOpt (List.find p l) = match List.find p l with Some _ => true | None => false end.
Proof.
  intros Hne. destruct (List.find p l) as [h|] eqn:Hf; [|reflexivity].
  apply find_some in Hf. cbn. apply truthy_true. intros ->. tauto.
Qed.

(** Case analysis on a membership [H : In f FORM_FIELDS]: [tac] is run
    with [f] replaced by each of the fourteen fields in turn. *)
Tactic Notation "each_field" hyp(H) "by" tactic3(tac) :=
  unfold FORM_FIELDS in H; cbn [In] in H;
  repeat (destruct H as [<-|H]; [tac|]); try contradiction.

(** Every canonical field is found under its own key. *)
Lemma find_formKey (f : FormField) :
  In f FORM_FIELDS ->
  List.find (fun g => String.eqb (formKey g) (formKey f)) FORM_FIELDS = Some f.
Proof.
  intros Hin. each_field Hin by reflexivity.
Qed.

(** The aliases are written in lower case. *)
Lemma variantNames_lower (f : FormField) :
  In f FORM_FIELDS ->
  Forall (fun v => JS.toLowerCase v = v) (variantNames f).
Proof.
  intros Hin. apply Forall_forall. intros v Hv.
  apply list_elem_of_In in Hv. apply String.eqb_eq. revert v Hv.
  apply (proj1 (forallb_forall (fun v => String.eqb (JS.toLowerCase v) v)
                  (variantNames f))).
  each_field Hin by (vm_compute; reflexivity).
Qed.

(** No two canonical fields have the same display name, even ignoring
    case. *)
Lemma displayName_lower_inj (f g : FormField) :
  In f FORM_FIELDS -> In g FORM_FIELDS ->
  JS.toLowerCase (displayName f) = JS.toLowerCase (displayName g) -> f = g.
Proof.
  intros Hf Hg.
  each_field Hf by
    (each_field Hg by
       (intros E; first [reflexivity | vm_compute in E; discriminate E])).
Qed.

Lemma findVariation_firstAlias (variations sheetHeaders : list string) :
  Forall (fun v => JS.toLowerCase v = v) variations ->
  ~ In "" sheetHeaders ->
  findVariation variations sheetHeaders
  = SpecResolver.firstAlias variations sheetHeaders.
Proof.
  intros Hlow Hne. induction Hlow as [|v vs Hv _ IH]; [reflexivity|].
  cbn [findVariation SpecResolver.firstAlias].
  rewrite (truthyOpt_find _ _ Hne).
  rewrite (find_ext (variationHit v)
             (fun h => JS.includes (JS.toLowerCase h) v
                       || JS.includes v (JS.toLowerCase h))).
  - destruct (List.find _ sheetHeaders); [reflexivity | exact IH].
  - intros h. unfold variationHit. now rewrite Hv.
Qed.

(** [findColumnHeader] forgets the tier of [findColumnHeaderTier]. *)
Lemma findColumnHeader_tier (formFieldName : string) (sheetHeaders : list string) :
  findColumnHeader formFieldName sheetHeaders
  = snd <$> findColumnHeaderTier formFieldName sheetHeaders.
Proof.
  unfold findColumnHeader, findColumnHeaderTier.
  destruct (List.find _ FORM_FIELDS) as [field|]; [|reflexivity].
  cbv zeta. destruct (existsb _ sheetHeaders); [reflexivity|].
  destruct (JS.truthyOpt _).
  - destruct (List.find _ sheetHeaders); reflexivity.
  - destruct (findVariation _ sheetHeaders); reflexivity.
Qed.

(** A header found through the first or the second tier is the display
    name up to case. *)
Lemma findColumnHeaderTier_not_variant (f : FormField) (sheetHeaders : list string)
    (t : Tier) (h : string) :
  In f FORM_FIELDS ->
  findColumnHeaderTier (formKey f) sheetHeaders = Some (t, h) ->
  t <> Variant ->
  JS.toLowerCase h = JS.toLowerCase (displayName f).
Proof.
  intros Hin Ht Hnv. unfold findColumnHeaderTier in Ht.
  rewrite (find_formKey f Hin) in Ht. cbv zeta in Ht.
  destruct (existsb _ sheetHeaders).
  { injection Ht as <- <-. reflexivity. }
  destruct (JS.truthyOpt _).
  - destruct (List.find _ sheetHeaders) as [x|] eqn:Hf; [|discriminate].
    injection Ht as <- <-. apply find_some in Hf. destruct Hf as [_ Hf].
    now apply String.eqb_eq in Hf.
  - destruct (findVariation _ sheetHeaders); [|discriminate].
    injection Ht as <- <-. congruence.
Qed.

(** C4, the claim on a header list with an empty header: the empty header
    is contained in the first alias of Budget, so it is the first hit of the
    variant tier, yet [findColumnHeader] returns nothing. *)
Lemma findColumnHeader_empty_header_differs :
  let budget := mkField "budget" "Budget" true number None in
  variationHit "budget" "" = true
  /\ SpecResolver.resolve budget [""; "amount"] = Some ""
  /\ findColumnHeader "budget" [""; "amount"] = None
  /\ findColumnHeader "budget" [""; "amount"]
     <> SpecResolver.resolve budget [""; "amount"].
Proof.
  intros budget. split; [apply includes_empty|].
  split; [vm_compute; reflexivity|]. split; [vm_compute; reflexivity|].
  vm_compute. discriminate.
Qed.

(** C4, amended. On observed headers none of which is empty,
    [findColumnHeader] is the three tiers in order, first hit winning:
    equality with the display name, equality ignoring case, then the
    aliases in declaration order with, for each, the first header that
    contains it or is contained in it.  Budget against [budget; Notes] is
    found by the case-insensitive tier. *)
Theorem findColumnHeader_three_tiers :
  (forall (f : FormField) (sheetHeaders : list string),
      In f FORM_FIELDS ->
      ~ In "" sheetHeaders ->
      findColumnHeader (formKey f) sheetHeaders = SpecResolver.resolve f sheetHeaders)
  /\ findColumnHeader "budget" ["budget"; "Notes"] = Some "budget"
  /\ findColumnHeaderTier "budget" ["budget"; "Notes"] = Some (CaseInsensitive, "budget").
Proof.
  split; [|split; vm_compute; reflexivity].
  intros f hs Hin Hne. unfold findColumnHeader, SpecResolver.resolve.
  rewrite (find_formKey f Hin). cbv zeta.
  unfold SpecResolver.exact. rewrite find_eqb.
  destruct (existsb _ hs); [reflexivity|].
  rewrite (truthyOpt_find _ _ Hne). unfold SpecResolver.caseInsensitive.
  destruct (List.find _ hs); [reflexivity|].
  unfold SpecResolver.variant.
  apply findVariation_firstAlias; [|exact Hne].
  now apply variantNames_lower.
Qed.

Lemma findColumnHeader_three_tiers_witness :
  let startDate := mkField "startDate" "Start Date" true date None in
  let observed := ["Name"; "campaign start"; "Start"] in
  In startDate FORM_FIELDS
  /\ ~ In "" observed
  /\ findColumnHeader "startDate" observed = SpecResolver.resolve startDate observed.
Proof.
  intros startDate observed.
  assert (Hin : In startDate FORM_FIELDS) by (vm_compute; tauto).
  assert (Hne : ~ In "" observed).
  { cbn [In observed]. intros [H|[H|[H|H]]]; first [discriminate H | exact H]. }
  split; [exact Hin|]. split; [exact Hne|].
  exact (proj1 findColumnHeader_three_tiers startDate observed Hin Hne).
Defined.

(** C8, the claim at a concrete input: Campaign Name and Campaign Type
    both resolve to the one header [campaign]. *)
Lemma findColumnHeader_shared_header :
  ~ (forall (sheetHeaders : list string) (f g : FormField) (h : string),
        In f FORM_FIELDS -> In g FORM_FIELDS -> f <> g ->
        findColumnHeader (formKey f) sheetHeaders = Some h ->
        findColumnHeader (formKey g) sheetHeaders <> Some h).
Proof.
  intros H.
  apply (H ["campaign"]
           (mkField "campaignName" "Campaign Name" true text None)
           (mkField "campaignType" "Campaign Type" true select
              (Some ["Brand Collaboration"; "Product Launch"; "Event Promotion";
                     "Content Creation"; "Other"]))
           "campaign").
  - vm_compute. tauto.
  - vm_compute. tauto.
  - discriminate.
  - vm_compute. reflexivity.
  - vm_compute. reflexivity.
Qed.

(** C8, amended. When two distinct canonical fields resolve to the same
    observed header, at least one of them found it through the variant
    tier: the exact and the case-insensitive tiers never give one header
    to two fields. *)
Theorem findColumnHeader_shared_only_by_variant
    (sheetHeaders : list string) (f g : FormField) (h : string) :
  In f FORM_FIELDS -> In g FORM_FIELDS -> f <> g ->
  findColumnHeader (formKey f) sheetHeaders = Some h ->
  findColumnHeader (formKey g) sheetHeaders = Some h ->
  findColumnHeaderTier (formKey f) sheetHeaders = Some (Variant, h)
  \/ findColumnHeaderTier (formKey g) sheetHeaders = Some (Variant, h).
Proof.
  intros Hf Hg Hfg Ef Eg. rewrite findColumnHeader_tier in Ef, Eg.
  destruct (findColumnHeaderTier (formKey f) sheetHeaders) as [[t1 h1]|] eqn:T1;
    [|discriminate].
  destruct (findColumnHeaderTier (formKey g) sheetHeaders) as [[t2 h2]|] eqn:T2;
    [|discriminate].
  cbn in Ef, Eg. injection Ef as ->. injection Eg as ->.
  destruct (decide (t1 = Variant)) as [->|N1]; [now left|].
  destruct (decide (t2 = Variant)) as [->|N2]; [now right|].
  exfalso. apply Hfg. apply displayName_lower_inj; [assumption..|].
  rewrite <- (findColumnHeaderTier_not_variant f sheetHeaders t1 h Hf T1 N1).
  exact (findColumnHeaderTier_not_variant g sheetHeaders t2 h Hg T2 N2).
Qed.

Lemma findColumnHeader_shared_only_by_variant_witness :
  let campaignName := mkField "campaignName" "Campaign Name" true text None in
  let campaignType :=
    mkField "campaignType" "Campaign Type" true select
      (Some ["Brand Collaboration"; "Product Launch"; "Event Promotion";
             "Content Creation"; "Other"]) in
  findColumnHeader "campaignName" ["campaign"] = Some "campaign"
  /\ findColumnHeader "campaignType" ["campaign"] = Some "campaign"
  /\ (findColumnHeaderTier "campaignName" ["campaign"] = Some (Variant, "campaign")
      \/ findColumnHeaderTier "campaignType" ["campaign"] = Some (Variant, "campaign")).
Proof.
  intros campaignName campaignType.
  assert (E1 : findColumnHeader (formKey campaignName) ["campaign"] = Some "campaign")
    by (vm_compute; reflexivity).
  assert (E2 : findColumnHeader (formKey campaignType) ["campaign"] = Some "campaign")
    by (vm_compute; reflexivity).
  split; [exact E1|]. split; [exact E2|].
  refine (findColumnHeader_shared_only_by_variant ["campaign"] campaignName
            campaignType "campaign" _ _ _ E1 E2).
  - vm_compute. tauto.
  - vm_compute. tauto.
  - discriminate.
Defined.

(* ===================================================================== *)
(** ** The structure validator *)
(* ===================================================================== *)

Lemma isExpected_In (header : string) :
  isExpected header = true <-> In header EXPECTED_SHEET_HEADERS.
Proof.
  unfold isExpected, EXPECTED_SHEET_HEADERS. rewrite existsb_exists, in_map_iff.
  split.
  - intros [f [H1 H2]]. exists f. apply String.eqb_eq in H2. tauto.
  - intros [f [H1 H2]]. exists f. split; [tauto|]. apply String.eqb_eq. tauto.
Qed.

Lemma checkExtra_fold (sheetHeaders : list string) :
  forall (extra : list string) (sugg : gmap string string),
    fst (fold_left checkExtra sheetHeaders (extra, sugg))
    = extra ++ List.filter (fun h => negb (isExpected h)) sheetHeaders.
Proof.
  induction sheetHeaders as [|h hs IH]; intros extra sugg.
  - cbn. now rewrite app_nil_r.
  - cbn [fold_left List.filter]. unfold checkExtra at 2. fold (isExpected h).
    destruct (isExpected h); cbn [negb].
    + apply IH.
    + rewrite IH. now rewrite <- app_assoc.
Qed.

Lemma extraFields_filter (sheetHeaders : list string) :
  extraFields (validateSheetStructure sheetHeaders)
  = List.filter (fun h => negb (isExpected h)) sheetHeaders.
Proof.
  unfold validateSheetStructure. cbv zeta.
  pose proof (checkExtra_fold sheetHeaders [] ∅) as H.
  destruct (fold_left checkExtra sheetHeaders ([], ∅)) as [extra sugg].
  exact H.
Qed.

(** C7. [extraFields] is the observed headers, in order, that are not
    letter for letter a canonical display name, so a header that differs
    in case or matches an alias is extra although the resolver finds it;
    for [Campaign Name; Brand Name; Extra Col] it is [Extra Col], and
    [missingFields] is every other required display name. *)
Theorem validateSheetStructure_extraFields :
  (forall (sheetHeaders : list string) (h : string),
      In h (extraFields (validateSheetStructure sheetHeaders))
      <-> In h sheetHeaders /\ ~ In h EXPECTED_SHEET_HEADERS)
  /\ (forall sheetHeaders : list string,
      extraFields (validateSheetStructure sheetHeaders)
      = List.filter (fun h => negb (isExpected h)) sheetHeaders)
  /\ extraFields (validateSheetStructure ["Campaign Name"; "Brand Name"; "Extra Col"])
     = ["Extra Col"]
  /\ missingFields (validateSheetStructure ["Campaign Name"; "Brand Name"; "Extra Col"])
     = map displayName
         (List.filter (fun f =>
            required f
            && negb (String.eqb (displayName f) "Campaign Name")
            && negb (String.eqb (displayName f) "Brand Name")) FORM_FIELDS)
  /\ (findColumnHeader "budget" ["budget"; "start_date"] = Some "budget"
      /\ findColumnHeader "startDate" ["budget"; "start_date"] = Some "start_date"
      /\ extraFields (validateSheetStructure ["budget"; "start_date"])
         = ["budget"; "start_date"]).
Proof.
  split; [|split; [exact extraFields_filter|]].
  - intros hs h. rewrite extraFields_filter, filter_In.
    rewrite negb_true_iff, <- not_true_iff_false, isExpected_In. reflexivity.
  - repeat split; vm_compute; reflexivity.
Qed.

(* ===================================================================== *)
(** ** The key of a record entry *)
(* ===================================================================== *)

(** [findColumnHeader] reads its first argument as a form key: called on
    an observed header against the expected headers, it answers with a
    display name exactly when the header is the form key of a field. *)
Lemma findColumnHeader_expected (header : string) :
  findColumnHeader header EXPECTED_SHEET_HEADERS
  = displayName <$> List.find (fun f => String.eqb (formKey f) header) FORM_FIELDS.
Proof.
  unfold findColumnHeader.
  destruct (List.find _ FORM_FIELDS) as [field|] eqn:Hf; [|reflexivity].
  cbv zeta. apply find_some in Hf. destruct Hf as [Hin _].
  assert (E : existsb (String.eqb (displayName field)) EXPECTED_SHEET_HEADERS = true).
  { apply existsb_exists. exists (displayName field). split.
    - unfold EXPECTED_SHEET_HEADERS. now apply in_map.
    - apply String.eqb_refl. }
  now rewrite E.
Qed.

(** C2, at the header [start_date]: the resolver gives this header to
    Start Date, yet the record built by [fetchSheetData] is keyed by the
    observed text. *)
Theorem fetchSheetData_key_start_date (config : SheetConfig) :
  findColumnHeader "startDate" ["start_date"] = Some "start_date"
  /\ fetchSheetData
       (fun _ => Return (okResponse ("start_date" +:+ String JS.newline "2024-01-01")))
       config
     = mkResult [ {[ "start_date" := "2024-01-01" ]} ] ["start_date"] None.
Proof. split; vm_compute; reflexivity. Qed.

(* ===================================================================== *)
(** ** The loop over the data rows *)
(* ===================================================================== *)

Section DataRows.

Variables emailTemplateIndex idColumnIndex sheetIdIndex : Z.
Variable filteredHeaders : list string.

Local Abbreviation build :=
  (buildRow emailTemplateIndex idColumnIndex sheetIdIndex filteredHeaders).
Local Abbreviation step :=
  (parseDataRow emailTemplateIndex idColumnIndex sheetIdIndex filteredHeaders).

(** A row that is skipped or whose key was seen leaves the state as it
    is. *)
Lemma parseDataRow_unchanged (st : gset string * list (gmap string string))
    (row : string) :
  (forall rowData rowKey, build row = Some (rowData, rowKey) -> rowKey ∈ st.1) ->
  step st row = st.
Proof.
  intros H. unfold step, parseDataRow. destruct st as [seen parsedData].
  fold (build row). destruct (build row) as [[rowData rowKey]|]; [|reflexivity].
  rewrite bool_decide_eq_true_2; [reflexivity|]. exact (H _ _ eq_refl).
Qed.

(** Keys are never removed from [seen]. *)
Lemma parseDataRow_seen_mono (st : gset string * list (gmap string string))
    (row k : string) :
  k ∈ st.1 -> k ∈ (step st row).1.
Proof.
  intros Hk. unfold step, parseDataRow. destruct st as [seen parsedData].
  destruct (buildRow _ _ _ _ row) as [[rowData rowKey]|]; [|exact Hk].
  destruct (bool_decide (rowKey ∈ seen)); [exact Hk|].
  cbn in *. set_solver.
Qed.

(** After a row, its key is in [seen]. *)
Lemma parseDataRow_seen_own (st : gset string * list (gmap string string))
    (row : string) (rowData : gmap string string) (rowKey : string) :
  build row = Some (rowData, rowKey) -> rowKey ∈ (step st row).1.
Proof.
  intros Hb. unfold step, parseDataRow. destruct st as [seen parsedData].
  fold (build row). rewrite Hb.
  destruct (bool_decide (rowKey ∈ seen)) eqn:Hd.
  - now apply bool_decide_eq_true_1 in Hd.
  - cbn. set_solver.
Qed.

(** Records are only ever appended. *)
Lemma parseDataRow_data_mono (st : gset string * list (gmap string string))
    (row : string) (r : gmap string string) :
  In r st.2 -> In r (step st row).2.
Proof.
  intros Hr. unfold step, parseDataRow. destruct st as [seen parsedData].
  destruct (buildRow _ _ _ _ row) as [[rowData rowKey]|]; [|exact Hr].
  destruct (bool_decide (rowKey ∈ seen)); [exact Hr|].
  cbn in *. apply in_or_app. now left.
Qed.

Lemma fold_seen_mono (rows : list string) :
  forall (st : gset string * list (gmap string string)) (k : string),
    k ∈ st.1 -> k ∈ (fold_left step rows st).1.
Proof.
  induction rows as [|row rows IH]; intros st k Hk; [exact Hk|].
  cbn [fold_left]. apply IH. now apply parseDataRow_seen_mono.
Qed.

Lemma fold_data_mono (rows : list string) :
  forall (st : gset string * list (gmap string string)) (r : gmap string string),
    In r st.2 -> In r (fold_left step rows st).2.
Proof.
  induction rows as [|row rows IH]; intros st r Hr; [exact Hr|].
  cbn [fold_left]. apply IH. now apply parseDataRow_data_mono.
Qed.

(** After the loop, the key of every row that was not skipped is in
    [seen]. *)
Lemma fold_seen_covers (rows : list string) :
  forall (st : gset string * list (gmap string string))
         (row : string) (rowData : gmap string string) (rowKey : string),
    In row rows -> build row = Some (rowData, rowKey) ->
    rowKey ∈ (fold_left step rows st).1.
Proof.
  induction rows as [|r rows IH]; intros st row rowData rowKey Hin Hb; [destruct Hin|].
  cbn [fold_left]. destruct Hin as [->|Hin].
  - apply fold_seen_mono. now apply (parseDataRow_seen_own st row rowData).
  - now apply (IH _ row rowData).
Qed.

(** Rows whose keys are all in [seen] leave the state as it is. *)
Lemma fold_unchanged (rows : list string) :
  forall st : gset string * list (gmap string string),
    (forall row rowData rowKey,
        In row rows -> build row = Some (rowData, rowKey) -> rowKey ∈ st.1) ->
    fold_left step rows st = st.
Proof.
  induction rows as [|r rows IH]; intros st H; [reflexivity|].
  cbn [fold_left]. rewrite parseDataRow_unchanged.
  - apply IH. intros row rowData rowKey Hin. apply H. now right.
  - intros rowData rowKey. apply H. now left.
Qed.

End DataRows.

(** [parseRows] is the loop over the data lines run from an empty [seen]
    and an empty [parsedData]. *)
Lemma parseRows_unfold (rows : list string) :
  parseRows rows
  = ((parseDataRows (hd "" rows) (tl rows) (∅, [])).2, filteredHeadersOf (hd "" rows)).
Proof.
  unfold parseRows, parseDataRows, filteredHeadersOf, emailTemplateIndexOf,
    idColumnIndexOf, sheetIdIndexOf. cbv zeta.
  destruct (fold_left _ (tl rows) (∅, [])) as [seen parsedData]. reflexivity.
Qed.

(** The key built by the [forEach] is the concatenation of the values it
    stored. *)
Lemma mapHeaders_key (filteredHeaders : list string) :
  forall (idx : nat) (filteredValues : list string)
         (rowData : gmap string string) (rowKey : string),
    (mapHeaders filteredHeaders idx filteredValues (rowData, rowKey)).2
    = rowKey +:+ concatStrings (mappedValues filteredHeaders idx filteredValues).
Proof.
  induction filteredHeaders as [|header more IH]; intros idx fv rowData rowKey.
  - cbn. now rewrite append_empty_r.
  - cbn [mapHeaders mappedValues]. rewrite IH.
    unfold concatStrings. cbn [fold_right]. now rewrite append_assoc.
Qed.

(** What [buildRow] returns, in terms of the retained values. *)
Lemma buildRow_eq (e i s : Z) (filteredHeaders : list string) (row : string) :
  buildRow e i s filteredHeaders row
  = let filteredValues := retained e i s (rowValues row) in
    let mapped := mapHeaders filteredHeaders 0 filteredValues (∅, "") in
    if forallb isBlank filteredValues then None
    else Some (if JS.truthyOpt (sheetIdValueOf s (rowValues row))
               then JS.obj_set "_sheetId"
                      (default "" (sheetIdValueOf s (rowValues row))) mapped.1
               else mapped.1,
               mapped.2).
Proof.
  unfold buildRow. cbv zeta.
  destruct (forallb isBlank _); [reflexivity|].
  destruct (mapHeaders _ _ _ _) as [rowData rowKey]. reflexivity.
Qed.

(** Rows with the same retained values are skipped together and have
    the same key. *)
Lemma buildRow_same_retained (e i s : Z) (filteredHeaders : list string)
    (row1 row2 : string) :
  retained e i s (rowValues row1) = retained e i s (rowValues row2) ->
  match buildRow e i s filteredHeaders row1, buildRow e i s filteredHeaders row2 with
  | None, None => True
  | Some (_, key1), Some (_, key2) => key1 = key2
  | _, _ => False
  end.
Proof.
  intros E. rewrite !buildRow_eq. cbv zeta. rewrite E.
  destruct (forallb isBlank _); [exact I | reflexivity].
Qed.

(** A row with a retained value that is not blank gives a record, under
    the composite key. *)
Lemma buildRowOf_nonblank (headerLine row : string) :
  forallb isBlank (retainedOf headerLine row) = false ->
  exists rowData, buildRowOf headerLine row = Some (rowData, rowKeyOf headerLine row).
Proof.
  intros Hb. unfold buildRowOf. rewrite buildRow_eq. cbv zeta.
  unfold retainedOf in Hb. rewrite Hb.
  rewrite mapHeaders_key, append_empty_l. eexists. reflexivity.
Qed.

(** The records only grow at the end. *)
Lemma parseDataRows_prefix (headerLine : string) (rows : list string) :
  forall st : gset string * list (gmap string string),
    exists tail, (parseDataRows headerLine rows st).2 = st.2 ++ tail.
Proof.
  unfold parseDataRows.
  induction rows as [|row rows IH]; intros st.
  - exists []. cbn. now rewrite app_nil_r.
  - cbn [fold_left].
    set (step := parseDataRow (emailTemplateIndexOf headerLine)
                   (idColumnIndexOf headerLine) (sheetIdIndexOf headerLine)
                   (filteredHeadersOf headerLine)) in *.
    destruct (IH (step st row)) as [tail Ht]. rewrite Ht.
    assert (H0 : exists t0, (step st row).2 = st.2 ++ t0).
    { unfold step, parseDataRow. destruct st as [seen parsedData].
      destruct (buildRow _ _ _ _ row) as [[rowData rowKey]|];
        [|exists []; cbn; now rewrite app_nil_r].
      destruct (bool_decide (rowKey ∈ seen));
        [exists []; cbn; now rewrite app_nil_r|].
      exists [rowData]. reflexivity. }
    destruct H0 as [t0 H0]. rewrite H0. exists (t0 ++ tail). now rewrite <- app_assoc.
Qed.

(** C5. Every data row with a retained value that is not blank gives a
    record, under the key that concatenates, in header order, the values
    stored in it; such a row is discarded when its key was seen in the run
    and otherwise appended and its key recorded.  Of two rows with the same
    retained values the later one adds nothing; the earlier one, when it is
    not blank and its key is new, is appended right after the records of
    the rows before it; a sheet of two such rows gives the record of the
    first and nothing else.  A run is the loop started from an empty [seen]
    and an empty [parsedData], so it depends on its input alone, and a
    second pass over the same data lines adds nothing. *)
Theorem parseRows_deduplicates (headerLine : string) :
  (forall row : string,
      forallb isBlank (retainedOf headerLine row) = false ->
      exists rowData : gmap string string,
        buildRowOf headerLine row = Some (rowData, rowKeyOf headerLine row)
        /\ forall (seen : gset string) (parsedData : list (gmap string string)),
             parseDataRows headerLine [row] (seen, parsedData)
             = if bool_decide (rowKeyOf headerLine row ∈ seen) then (seen, parsedData)
               else ({[rowKeyOf headerLine row]} ∪ seen, parsedData ++ [rowData]))
  /\ (forall (before : list string) (row1 : string) (between : list string)
             (row2 : string) (after : list string),
      retainedOf headerLine row1 = retainedOf headerLine row2 ->
      parseRows (headerLine :: before ++ row1 :: between ++ row2 :: after)
      = parseRows (headerLine :: before ++ row1 :: between ++ after))
  /\ (forall (before : list string) (row1 : string) (after : list string),
      forallb isBlank (retainedOf headerLine row1) = false ->
      rowKeyOf headerLine row1 ∉ (parseDataRows headerLine before (∅, [])).1 ->
      exists (rowData : gmap string string) (tail : list (gmap string string)),
        buildRowOf headerLine row1 = Some (rowData, rowKeyOf headerLine row1)
        /\ (parseRows (headerLine :: before ++ row1 :: after)).1
           = (parseRows (headerLine :: before)).1 ++ rowData :: tail)
  /\ (forall row1 row2 : string,
      retainedOf headerLine row1 = retainedOf headerLine row2 ->
      forallb isBlank (retainedOf headerLine row1) = false ->
      exists rowData : gmap string string,
        buildRowOf headerLine row1 = Some (rowData, rowKeyOf headerLine row1)
        /\ parseRows [headerLine; row1; row2]
           = ([rowData], filteredHeadersOf headerLine))
  /\ (forall dataRows : list string,
      parseRows (headerLine :: dataRows)
      = ((parseDataRows headerLine dataRows (∅, [])).2, filteredHeadersOf headerLine))
  /\ (forall dataRows : list string,
      parseRows (headerLine :: dataRows ++ dataRows)
      = parseRows (headerLine :: dataRows)).
Proof.
  split; [|split; [|split; [|split; [|split]]]].
  - intros row Hb. destruct (buildRowOf_nonblank headerLine row Hb) as [rowData Hr].
    exists rowData. split; [exact Hr|]. intros seen parsedData.
    unfold parseDataRows. cbn [fold_left]. unfold parseDataRow.
    unfold buildRowOf in Hr. now rewrite Hr.
  - intros before row1 between row2 after E.
    rewrite !parseRows_unfold. cbn [hd tl]. f_equal. f_equal.
    unfold parseDataRows.
    rewrite !fold_left_app. cbn [fold_left]. rewrite !fold_left_app. cbn [fold_left].
    f_equal. apply parseDataRow_unchanged. intros rowData rowKey Hb2.
    apply fold_seen_mono.
    pose proof (buildRow_same_retained _ _ _ (filteredHeadersOf headerLine) row1 row2 E)
      as Hsame.
    rewrite Hb2 in Hsame.
    destruct (buildRow _ _ _ _ row1) as [[rd1 k1]|] eqn:Hb1; [|destruct Hsame].
    subst k1. now apply (parseDataRow_seen_own _ _ _ _ _ row1 rd1).
  - intros before row1 after Hb Hnew.
    destruct (buildRowOf_nonblank headerLine row1 Hb) as [rowData Hr].
    rewrite !parseRows_unfold. cbn [hd tl fst].
    destruct (parseDataRows_prefix headerLine after
                (parseDataRows headerLine (before ++ [row1]) (∅, []))) as [tail Ht].
    exists rowData, tail. split; [exact Hr|].
    assert (E : parseDataRows headerLine (before ++ row1 :: after) (∅, [])
                = parseDataRows headerLine after
                    (parseDataRows headerLine (before ++ [row1]) (∅, []))).
    { unfold parseDataRows. rewrite !fold_left_app. reflexivity. }
    rewrite E, Ht.
    assert (Hx : (parseDataRows headerLine (before ++ [row1]) (∅, [])).2
                 = (parseDataRows headerLine before (∅, [])).2 ++ [rowData]).
    { unfold parseDataRows in *. rewrite fold_left_app. cbn [fold_left].
      destruct (fold_left _ before (∅, [])) as [seen parsedData].
      unfold parseDataRow. unfold buildRowOf in Hr. rewrite Hr.
      cbn [fst] in Hnew. rewrite bool_decide_eq_false_2 by exact Hnew. reflexivity. }
    rewrite Hx, <- app_assoc. reflexivity.
  - intros row1 row2 E Hb.
    destruct (buildRowOf_nonblank headerLine row1 Hb) as [rowData Hr].
    exists rowData. split; [exact Hr|].
    assert (Hb2 : forallb isBlank (retainedOf headerLine row2) = false)
      by now rewrite <- E.
    destruct (buildRowOf_nonblank headerLine row2 Hb2) as [rowData2 Hr2].
    assert (Hk : rowKeyOf headerLine row2 = rowKeyOf headerLine row1)
      by (unfold rowKeyOf; now rewrite E).
    rewrite Hk in Hr2.
    rewrite parseRows_unfold. cbn [hd tl]. f_equal.
    unfold parseDataRows. cbn [fold_left]. unfold parseDataRow.
    unfold buildRowOf in Hr, Hr2. rewrite Hr.
    rewrite bool_decide_eq_false_2 by set_solver.
    rewrite Hr2. rewrite bool_decide_eq_true_2 by set_solver. reflexivity.
  - intros dataRows. apply parseRows_unfold.
  - intros dataRows. rewrite !parseRows_unfold. cbn [hd tl]. f_equal. f_equal.
    unfold parseDataRows. rewrite fold_left_app. apply fold_unchanged.
    intros row rowData rowKey Hin Hb. now apply (fold_seen_covers _ _ _ _ _ _ row rowData).
Qed.

Lemma parseRows_deduplicates_witness :
  retainedOf "Name,Sheet ID" "Foo,s1" = retainedOf "Name,Sheet ID" "Foo,s2"
  /\ forallb isBlank (retainedOf "Name,Sheet ID" "Foo,s1") = false
  /\ parseRows ["Name,Sheet ID"; "Foo,s1"; "Foo,s2"]
     = ([ {[ "Name" := "Foo"; "_sheetId" := "s1" ]} ], ["Name"]).
Proof.
  split; [reflexivity|]. split; [reflexivity|].
  destruct (proj1 (proj2 (proj2 (proj2 (parseRows_deduplicates "Name,Sheet ID"))))
              "Foo,s1" "Foo,s2" eq_refl eq_refl) as [rowData [Hr Hp]].
  rewrite Hp. vm_compute in Hr. injection Hr as <-.
  vm_compute. reflexivity.
Defined.

(** C6. The header row [Campaign Name,Email Template,Sheet ID] with the
    data row [Foo,<template>,abc123] gives the headers [Campaign Name] and
    the one record with [Campaign Name] at [Foo] and [_sheetId] at
    [abc123]. *)
Theorem fetchSheetData_excludes_columns (config : SheetConfig) :
  let csvText :=
    "Campaign Name,Email Template,Sheet ID" +:+ String JS.newline "Foo,<template>,abc123" in
  nonBlankLines csvText = ["Campaign Name,Email Template,Sheet ID"; "Foo,<template>,abc123"]
  /\ parseRows (nonBlankLines csvText)
     = ([ {[ "Campaign Name" := "Foo"; "_sheetId" := "abc123" ]} ], ["Campaign Name"])
  /\ fetchSheetData (fun _ => Return (okResponse csvText)) config
     = mkResult [ {[ "Campaign Name" := "Foo"; "_sheetId" := "abc123" ]} ]
         ["Campaign Name"] None.
Proof. repeat split; vm_compute; reflexivity. Qed.

(* ===================================================================== *)
(** ** Failures of the fetch *)
(* ===================================================================== *)

(** C9. When the response fails a check of [fetchSheetData] (not [ok],
    as with status 302; an HTML payload; no non-blank line) the [try]
    block throws an [Error], and [fetchSheetData] returns a result with
    that error's message in [error] and with empty [headers] and [data];
    so it does when [fetch] itself rejects; for a 302 the message is the
    one of a private or inaccessible sheet. *)
Theorem fetchSheetData_failure (fetch : string -> Exn Response) (config : SheetConfig) :
  (forall response : Response,
      fetch (csvUrl config) = Return response ->
      classificationFails response = true ->
      exists message : string,
        fetchSheetData_try fetch config = Throw (ErrorObject message)
        /\ fetchSheetData fetch config = mkResult [] [] (Some message))
  /\ (forall t : Thrown,
      fetch (csvUrl config) = Throw t ->
      fetchSheetData fetch config
      = mkResult [] []
          (Some match t with
                | ErrorObject message => message
                | OtherValue => "Unknown error occurred"
                end))
  /\ (forall response : Response,
      fetch (csvUrl config) = Return response ->
      ok response = false ->
      status response = 302 ->
      fetchSheetData fetch config
      = mkResult [] []
          (Some ("Sheet " +:+ quoted (name config)
             +:+ " appears to be private or inaccessible. Please ensure the sheet is publicly viewable."))).
Proof.
  repeat split.
  - intros response Hf Hc. unfold fetchSheetData, fetchSheetData_try.
    rewrite Hf. cbn [mbind Exn_bind].
    unfold classificationFails, isHtml in Hc.
    destruct (ok response); cbn [negb orb] in Hc |- *.
    + destruct (JS.startsWith (JS.trim (body response)) "<HTML>"
                || JS.startsWith (JS.trim (body response)) "<!DOCTYPE");
        [eexists; split; reflexivity|].
      cbn [orb] in Hc. rewrite Hc. eexists; split; reflexivity.
    + destruct ((status response =? 302) || (status response =? 301)
                || JS.includes (url response) "accounts.google.com");
        eexists; split; reflexivity.
  - intros t Hf. unfold fetchSheetData, fetchSheetData_try.
    rewrite Hf. cbn [mbind Exn_bind]. destruct t; reflexivity.
  - intros response Hf Hok Hs. unfold fetchSheetData, fetchSheetData_try.
    rewrite Hf. cbn [mbind Exn_bind]. rewrite Hok, Hs. reflexivity.
Qed.

Lemma fetchSheetData_failure_witness :
  let fetch := fun _ : string => Return (mkResponse false 302 "" "") in
  let config := mkConfig "abc" (Some "0") "Dashboard Sheet" in
  classificationFails (mkResponse false 302 "" "") = true
  /\ exists message : string,
       fetchSheetData_try fetch config = Throw (ErrorObject message)
       /\ fetchSheetData fetch config = mkResult [] [] (Some message).
Proof.
  intros fetch config. split; [reflexivity|].
  exact (proj1 (fetchSheetData_failure fetch config)
           (mkResponse false 302 "" "") eq_refl eq_refl).
Defined.

(* ===================================================================== *)
(** ** The internal key [_sheetId] *)
(* ===================================================================== *)

Lemma FORM_FIELDS_not_sheetId (f : FormField) :
  In f FORM_FIELDS ->
  JS.truthy (displayName f) = true
  /\ displayName f <> "_sheetId" /\ formKey f <> "_sheetId".
Proof.
  intros Hin. each_field Hin by (split; [reflexivity | split; discriminate]).
Qed.

(** The key under which the [forEach] stores a value is [_sheetId] only
    for the header [_sheetId]. *)
Lemma mappedHeader_sheetId (header : string) :
  JS.or_else (findColumnHeader header EXPECTED_SHEET_HEADERS) header = "_sheetId"
  <-> header = "_sheetId".
Proof.
  rewrite findColumnHeader_expected.
  destruct (List.find _ FORM_FIELDS) as [f|] eqn:Hf; cbn [fmap option_fmap option_map JS.or_else].
  - apply find_some in Hf. destruct Hf as [Hin Hk]. apply String.eqb_eq in Hk.
    destruct (FORM_FIELDS_not_sheetId f Hin) as [Ht [Hd Hfk]]. rewrite Ht.
    split; intros E; [contradiction | congruence].
  - reflexivity.
Qed.

Lemma obj_set_lookup_sheetId (k v : string) (o : gmap string string) :
  is_Some (JS.obj_set k v o !! "_sheetId") <-> k = "_sheetId" \/ is_Some (o !! "_sheetId").
Proof.
  unfold JS.obj_set. destruct (String.eqb_spec k "__proto__") as [->|Hp].
  - split; [tauto|]. intros [E|H]; [discriminate E | exact H].
  - destruct (decide (k = "_sheetId")) as [->|Hk].
    + rewrite lookup_insert_eq. split; [now left | eauto].
    + rewrite lookup_insert_ne by exact Hk. tauto.
Qed.

Lemma mapHeaders_lookup_sheetId (filteredHeaders : list string) :
  forall (idx : nat) (filteredValues : list string)
         (rowData : gmap string string) (rowKey : string),
    is_Some ((mapHeaders filteredHeaders idx filteredValues (rowData, rowKey)).1
             !! "_sheetId")
    <-> In "_sheetId" filteredHeaders \/ is_Some (rowData !! "_sheetId").
Proof.
  induction filteredHeaders as [|header more IH]; intros idx fv rowData rowKey.
  - cbn. tauto.
  - cbn [mapHeaders In]. rewrite IH, obj_set_lookup_sheetId, mappedHeader_sheetId.
    tauto.
Qed.

(** C10, the claim on a sheet with a second column named [_sheetId]: the
    sheet-id cell of the row is empty and the record has the key. *)
Lemma buildRow_sheetId_from_header :
  ~ (forall (headerLine row : string) (rowData : gmap string string) (rowKey : string),
        buildRowOf headerLine row = Some (rowData, rowKey) ->
        (is_Some (rowData !! "_sheetId")
         <-> sheetIdIndexOf headerLine <> -1
             /\ exists v : string,
                  JS.at_index (rowValues row) (sheetIdIndexOf headerLine) = Some v
                  /\ v <> "")).
Proof.
  intros H.
  assert (Hb : buildRowOf "Sheet ID,_sheetId" ",x" = Some ({[ "_sheetId" := "x" ]}, "x"))
    by (vm_compute; reflexivity).
  destruct (proj1 (H _ _ _ _ Hb)) as [_ [v [Hv Hne]]].
  - rewrite lookup_singleton_eq. eauto.
  - vm_compute in Hv. injection Hv as <-. now apply Hne.
Qed.

(** C10, amended. The record of a row has the key [_sheetId] if and only
    if the sheet-id column was located and the row's value in it is not
    empty, or a retained header is itself [_sheetId]; and when no retained
    header is [_sheetId], the value under the key is the row's value in the
    sheet-id column, which is not empty. *)
Theorem buildRow_sheetId (headerLine row : string)
    (rowData : gmap string string) (rowKey : string) :
  buildRowOf headerLine row = Some (rowData, rowKey) ->
  (is_Some (rowData !! "_sheetId")
   <-> (sheetIdIndexOf headerLine <> -1
        /\ exists v : string,
             JS.at_index (rowValues row) (sheetIdIndexOf headerLine) = Some v
             /\ v <> "")
       \/ In "_sheetId" (filteredHeadersOf headerLine))
  /\ (~ In "_sheetId" (filteredHeadersOf headerLine) ->
      forall v : string,
        rowData !! "_sheetId" = Some v ->
        JS.at_index (rowValues row) (sheetIdIndexOf headerLine) = Some v /\ v <> "").
Proof.
  intros Hb. unfold buildRowOf in Hb. rewrite buildRow_eq in Hb. cbv zeta in Hb.
  destruct (forallb isBlank _); [discriminate|].
  injection Hb as <- _.
  pose proof (mapHeaders_lookup_sheetId (filteredHeadersOf headerLine) 0
                (retained (emailTemplateIndexOf headerLine) (idColumnIndexOf headerLine)
                   (sheetIdIndexOf headerLine) (rowValues row)) ∅ "") as Hm.
  rewrite lookup_empty in Hm.
  assert (Hnone : ~ is_Some (@None string)) by (intros [x Hx]; discriminate Hx).
  set (s := sheetIdIndexOf headerLine) in *.
  assert (Hsid : forall v, sheetIdValueOf s (rowValues row) = Some v -> v <> "" ->
                  s <> -1 /\ JS.at_index (rowValues row) s = Some v).
  { intros v Hv Hne. unfold sheetIdValueOf in Hv.
    destruct (Z.eqb_spec s (-1)) as [E|E]; cbn [negb] in Hv.
    - injection Hv as <-. contradiction.
    - tauto. }
  assert (Hsid' : forall v, s <> -1 -> JS.at_index (rowValues row) s = Some v ->
                   sheetIdValueOf s (rowValues row) = Some v).
  { intros v E Hv. unfold sheetIdValueOf.
    destruct (Z.eqb_spec s (-1)); [contradiction | exact Hv]. }
  destruct (sheetIdValueOf s (rowValues row)) as [sid|] eqn:Hsv; cbn [JS.truthyOpt].
  - destruct (JS.truthy sid) eqn:Ht.
    + apply truthy_true in Ht. destruct (Hsid sid eq_refl Ht) as [Hs1 Hs2].
      cbn [default]. split.
      * unfold JS.obj_set. cbn. rewrite lookup_insert_eq. split; [|eauto].
        intros _. left. eauto.
      * intros _ v Hv. unfold JS.obj_set in Hv. cbn in Hv.
        rewrite lookup_insert_eq in Hv. injection Hv as <-. tauto.
    + assert (Hs : sid = "").
      { destruct (String.eqb_spec sid "") as [E|E]; [exact E|].
        apply truthy_true in E. congruence. }
      subst sid. split.
      * rewrite Hm. split; [tauto|]. intros [[Hs1 [v [Hv Hne]]]|Hin]; [|tauto].
        specialize (Hsid' v Hs1 Hv). congruence.
      * intros Hnin v Hv. exfalso.
        assert (Hsome : is_Some (Some v)) by eauto.
        rewrite <- Hv in Hsome. apply Hm in Hsome. tauto.
  - split.
    + rewrite Hm. split; [tauto|]. intros [[Hs1 [v [Hv Hne]]]|Hin]; [|tauto].
      specialize (Hsid' v Hs1 Hv). congruence.
    + intros Hnin v Hv. exfalso.
      assert (Hsome : is_Some (Some v)) by eauto.
      rewrite <- Hv in Hsome. apply Hm in Hsome. tauto.
Qed.

Lemma buildRow_sheetId_witness :
  buildRowOf "Campaign Name,Sheet ID" "Foo,abc123"
  = Some ({[ "Campaign Name" := "Foo"; "_sheetId" := "abc123" ]}, "Foo")
  /\ (is_Some (({[ "Campaign Name" := "Foo"; "_sheetId" := "abc123" ]}
                : gmap string string) !! "_sheetId")
      <-> (sheetIdIndexOf "Campaign Name,Sheet ID" <> -1
           /\ exists v : string,
                JS.at_index (rowValues "Foo,abc123")
                  (sheetIdIndexOf "Campaign Name,Sheet ID") = Some v
                /\ v <> "")
          \/ In "_sheetId" (filteredHeadersOf "Campaign Name,Sheet ID")).
Proof.
  assert (Hb : buildRowOf "Campaign Name,Sheet ID" "Foo,abc123"
               = Some ({[ "Campaign Name" := "Foo"; "_sheetId" := "abc123" ]}, "Foo"))
    by (vm_compute; reflexivity).
  split; [exact Hb|].
  exact (proj1 (buildRow_sheetId _ _ _ _ Hb)).
Defined.

(* ===================================================================== *)
(** ** Further properties of the tokenizer *)
(* ===================================================================== *)

Lemma trimStart_noLeadingSpace (s : string) : noLeadingSpace (JS.trimStart s).
Proof.
  induction s as [|c s IH]; [exact I|].
  cbn [JS.trimStart]. destruct (JS.isWhiteSpace c) eqn:Hc; [exact IH | exact Hc].
Qed.

Lemma trimStart_fixed (s : string) : noLeadingSpace s -> JS.trimStart s = s.
Proof.
  destruct s as [|c s]; [reflexivity|]. cbn [noLeadingSpace JS.trimStart].
  now intros ->.
Qed.

Lemma trimEnd_noLeadingSpace (s : string) :
  noLeadingSpace s -> noLeadingSpace (JS.trimEnd s).
Proof.
  destruct s as [|c s]; [intros _; exact I|].
  cbn [noLeadingSpace JS.trimEnd]. intros Hc.
  destruct (JS.trimEnd s); [now rewrite Hc | exact Hc].
Qed.

Lemma trimEnd_cons (c : ascii) (s : string) :
  JS.trimEnd (String c s)
  = match JS.trimEnd s with
    | EmptyString => if JS.isWhiteSpace c then EmptyString else String c EmptyString
    | String d r => String c (String d r)
    end.
Proof. cbn [JS.trimEnd]. destruct (JS.trimEnd s); reflexivity. Qed.

Lemma trimEnd_idempotent (s : string) : JS.trimEnd (JS.trimEnd s) = JS.trimEnd s.
Proof.
  induction s as [|c s IH]; [reflexivity|].
  rewrite trimEnd_cons. destruct (JS.trimEnd s) as [|d r] eqn:E.
  - destruct (JS.isWhiteSpace c) eqn:Hc; [reflexivity|].
    rewrite trimEnd_cons. cbn [JS.trimEnd]. now rewrite Hc.
  - rewrite trimEnd_cons, IH. reflexivity.
Qed.

(** [trim] leaves a trimmed string as it is. *)
Lemma trim_idempotent (s : string) : JS.trim (JS.trim s) = JS.trim s.
Proof.
  unfold JS.trim.
  rewrite (trimStart_fixed (JS.trimEnd (JS.trimStart s))).
  - apply trimEnd_idempotent.
  - apply trimEnd_noLeadingSpace, trimStart_noLeadingSpace.
Qed.

(** The loop on [row] and on [row] behind one more character: the shape
    in which an induction on [row] reaches the step that skips two
    characters. *)
Lemma parseCSVRow_loop_ind (P : string -> list string -> string -> bool -> Prop) :
  (forall values current inQuotes, P "" values current inQuotes) ->
  (forall c rest values current inQuotes,
      (forall values' current' inQuotes', P rest values' current' inQuotes') ->
      (forall rest', rest = String JS.dquote rest' ->
         forall values' current' inQuotes', P rest' values' current' inQuotes') ->
      P (String c rest) values current inQuotes) ->
  forall row values current inQuotes, P row values current inQuotes.
Proof.
  intros Hnil Hcons row.
  enough (H : (forall values current inQuotes, P row values current inQuotes)
              /\ (forall c values current inQuotes,
                     P (String c row) values current inQuotes)) by apply H.
  induction row as [|d row [IH1 IH2]].
  - split; [exact Hnil|]. intros c values current inQuotes.
    apply Hcons; [intros; apply Hnil|]. intros rest' E. discriminate E.
  - split; [apply IH2|]. intros c values current inQuotes.
    apply Hcons; [apply IH2|]. intros rest' E. injection E as _ <-. exact IH1.
Qed.

Lemma parseCSVRow_loop_fields (row : string) (values : list string)
    (current : string) (inQuotes : bool) :
  Forall (fun f => JS.trim f = f) values ->
  Forall (fun f => JS.trim f = f) (parseCSVRow_loop row values current inQuotes)
  /\ (length values + 1 <= length (parseCSVRow_loop row values current inQuotes)
      <= length values + 1 + countChar JS.comma row)%nat.
Proof.
  revert row values current inQuotes.
  apply (parseCSVRow_loop_ind (fun row values current inQuotes =>
    Forall (fun f => JS.trim f = f) values ->
    Forall (fun f => JS.trim f = f) (parseCSVRow_loop row values current inQuotes)
    /\ (length values + 1 <= length (parseCSVRow_loop row values current inQuotes)
        <= length values + 1 + countChar JS.comma row)%nat)).
  - intros values current inQuotes Hv. cbn [parseCSVRow_loop countChar].
    rewrite length_app. cbn [length]. split; [|lia].
    apply Forall_app. split; [exact Hv|]. constructor; [apply trim_idempotent | constructor].
  - intros c rest values current inQuotes IH1 IH2 Hv.
    cbn [parseCSVRow_loop countChar].
    destruct (Ascii.eqb c JS.dquote) eqn:Hq.
    + assert (Hc : Ascii.eqb c JS.comma = false).
      { apply Ascii.eqb_eq in Hq. subst c. reflexivity. }
      rewrite Hc. cbn [Nat.add].
      destruct rest as [|d rest'].
      * apply IH1, Hv.
      * destruct (Ascii.eqb d JS.dquote) eqn:Hd.
        -- apply Ascii.eqb_eq in Hd. subst d.
           destruct (IH2 rest' eq_refl values (current +:+ String JS.dquote "")
                       inQuotes Hv) as [F [L1 L2]].
           split; [exact F|]. cbn [countChar]. change (Ascii.eqb JS.dquote JS.comma) with false.
           cbn [Nat.add]. lia.
        -- apply IH1, Hv.
    + destruct (Ascii.eqb c JS.comma) eqn:Hc; cbn [andb].
      * destruct inQuotes; cbn [negb].
        -- destruct (IH1 values (current +:+ String c "") true Hv) as [F [L1 L2]].
           split; [exact F | lia].
        -- assert (Hv' : Forall (fun f => JS.trim f = f) (values ++ [JS.trim current])).
           { apply Forall_app. split; [exact Hv|].
             constructor; [apply trim_idempotent | constructor]. }
           destruct (IH1 (values ++ [JS.trim current]) "" false Hv') as [F [L1 L2]].
           rewrite length_app in L1, L2. cbn [length] in L1, L2.
           split; [exact F | lia].
      * destruct (IH1 values (current +:+ String c "") inQuotes Hv) as [F [L1 L2]].
        split; [exact F | cbn [Nat.add]; lia].
Qed.

(** X1. [parseCSVRow] returns at least one field and at most one more
    than the line has commas, and every field is trimmed: trimming it again
    changes nothing. *)
Theorem parseCSVRow_fields (row : string) :
  (1 <= length (parseCSVRow row) <= 1 + countChar JS.comma row)%nat
  /\ (forall f : string, In f (parseCSVRow row) -> JS.trim f = f).
Proof.
  destruct (parseCSVRow_loop_fields row [] "" false (List.Forall_nil _)) as [F L].
  split; [exact L|]. intros f Hf.
  rewrite Forall_forall in F. apply F. now apply list_elem_of_In.
Qed.

Lemma parseCSVRow_fields_witness :
  In "b c" (parseCSVRow " a ,  b c ,")
  /\ JS.trim "b c" = "b c".
Proof.
  assert (Hin : In "b c" (parseCSVRow " a ,  b c ,")) by (vm_compute; tauto).
  split; [exact Hin|].
  exact (proj2 (parseCSVRow_fields " a ,  b c ,") "b c" Hin).
Defined.

Lemma includes_single (c d : ascii) (s : string) :
  JS.includes (String c s) (String d "")
  = Ascii.eqb d c || JS.includes s (String d "").
Proof. cbn [JS.includes]. now rewrite startsWith_single. Qed.

Lemma stripQuotes_id (s : string) :
  JS.includes s (String JS.dquote "") = false -> JS.stripQuotes s = s.
Proof.
  induction s as [|c s IH]; [reflexivity|].
  rewrite includes_single. intros H. apply orb_false_iff in H. destruct H as [Hc Hs].
  cbn [JS.stripQuotes]. rewrite Ascii.eqb_sym, Hc. now rewrite (IH Hs).
Qed.

(** The loop over characters that are no double quote and, outside
    quotes, no comma: they are appended to the field. *)
Lemma parseCSVRow_loop_chars (v : string) :
  forall (rest : string) (values : list string) (current : string) (inQuotes : bool),
    JS.includes v (String JS.dquote "") = false ->
    (inQuotes = false -> JS.includes v "," = false) ->
    parseCSVRow_loop (v +:+ rest) values current inQuotes
    = parseCSVRow_loop rest values (current +:+ v) inQuotes.
Proof.
  induction v as [|c v IH]; intros rest values current inQuotes Hq Hc.
  - now rewrite append_empty_l, append_empty_r.
  - rewrite includes_single in Hq. apply orb_false_iff in Hq. destruct Hq as [Hq1 Hq2].
    rewrite append_cons. cbn [parseCSVRow_loop].
    rewrite Ascii.eqb_sym, Hq1.
    assert (Hcomma : Ascii.eqb c JS.comma && negb inQuotes = false).
    { destruct inQuotes; [apply andb_false_r|].
      specialize (Hc eq_refl). rewrite includes_single in Hc.
      apply orb_false_iff in Hc. destruct Hc as [Hc _].
      rewrite Ascii.eqb_sym. unfold JS.comma. now rewrite Hc. }
    rewrite Hcomma. rewrite IH.
    + now rewrite append_assoc, append_cons, append_empty_l.
    + exact Hq2.
    + intros E. specialize (Hc E). rewrite includes_single in Hc.
      apply orb_false_iff in Hc. tauto.
Qed.

(** The loop over one value as [csvQuote] writes it, outside quotes and
    before something that is no double quote: the value is appended to the
    field and the loop is outside quotes again. *)
Lemma parseCSVRow_loop_csvQuote (v rest : string) (values : list string)
    (current : string) :
  JS.includes v (String JS.dquote "") = false ->
  JS.startsWith rest (String JS.dquote "") = false ->
  parseCSVRow_loop (csvQuote v +:+ rest) values current false
  = parseCSVRow_loop rest values (current +:+ v) false.
Proof.
  intros Hq Hrest. unfold csvQuote. destruct (JS.includes v ",") eqn:Hc.
  - unfold quoted. rewrite append_cons, append_assoc, append_cons, append_empty_l.
    destruct v as [|c v]; [discriminate Hc|].
    pose proof Hq as Hq'. rewrite includes_single in Hq'.
    apply orb_false_iff in Hq'. destruct Hq' as [Hq1 Hq2].
    rewrite append_cons. cbn [parseCSVRow_loop].
    change (Ascii.eqb JS.dquote JS.dquote) with true. cbv iota.
    rewrite Ascii.eqb_sym, Hq1. cbn [negb]. rewrite andb_false_r.
    rewrite (parseCSVRow_loop_chars v _ _ _ true Hq2) by discriminate.
    rewrite append_assoc, append_cons, append_empty_l.
    destruct rest as [|d rest]; [reflexivity|].
    rewrite startsWith_single, Ascii.eqb_sym in Hrest.
    cbn [parseCSVRow_loop]. change (Ascii.eqb JS.dquote JS.dquote) with true. cbv iota.
    now rewrite Hrest.
  - apply parseCSVRow_loop_chars; [exact Hq | intros _; exact Hc].
Qed.

Lemma parseCSVRow_loop_join (vs : list string) :
  forall values0 : list string,
    vs <> [] ->
    (forall v, In v vs -> JS.includes v (String JS.dquote "") = false /\ JS.trim v = v) ->
    parseCSVRow_loop (joinStrings "," (map csvQuote vs)) values0 "" false
    = values0 ++ vs.
Proof.
  induction vs as [|v vs IH]; intros values0 Hne Hvs; [congruence|].
  destruct (Hvs v (or_introl eq_refl)) as [Hq Ht].
  destruct vs as [|w more].
  - cbn [map joinStrings]. rewrite <- (append_empty_r (csvQuote v)).
    rewrite (parseCSVRow_loop_csvQuote v "" values0 "" Hq) by reflexivity.
    cbn [parseCSVRow_loop]. now rewrite append_empty_l, Ht.
  - change (joinStrings "," (map csvQuote (v :: w :: more)))
      with (csvQuote v +:+ "," +:+ joinStrings "," (map csvQuote (w :: more))).
    rewrite (parseCSVRow_loop_csvQuote v _ values0 "" Hq) by reflexivity.
    rewrite append_empty_l.
    change ("," +:+ joinStrings "," (map csvQuote (w :: more)))
      with (String JS.comma (joinStrings "," (map csvQuote (w :: more)))).
    cbn [parseCSVRow_loop]. change (Ascii.eqb JS.comma JS.dquote) with false.
    change (Ascii.eqb JS.comma JS.comma) with true. cbn [andb negb]. cbv iota.
    rewrite Ht, IH.
    + now rewrite <- app_assoc.
    + discriminate.
    + intros x Hx. apply Hvs. now right.
Qed.

Lemma parseCSVRow_join (values : list string) :
  values <> [] ->
  (forall v, In v values ->
     JS.includes v (String JS.dquote "") = false /\ JS.trim v = v) ->
  parseCSVRow (joinStrings "," (map csvQuote values)) = values.
Proof.
  intros Hne Hvs. unfold parseCSVRow.
  now rewrite (parseCSVRow_loop_join values [] Hne Hvs).
Qed.

(** X2. Writing then reading a row: values that contain no double quote
    and are trimmed, each put between double quotes when it has a comma
    (as [generateCSVContent] does) and joined by commas, are returned
    unchanged by [parseCSVRow]. *)
Theorem parseCSVRow_csvQuote_roundtrip (values : list string) :
  values <> [] ->
  (forall v, In v values ->
     JS.includes v (String JS.dquote "") = false /\ JS.trim v = v) ->
  parseCSVRow (joinStrings "," (map csvQuote values)) = values.
Proof. apply parseCSVRow_join. Qed.

Lemma parseCSVRow_csvQuote_roundtrip_witness :
  parseCSVRow (joinStrings "," (map csvQuote ["3 posts, 2 stories"; ""; "x y"]))
  = ["3 posts, 2 stories"; ""; "x y"].
Proof.
  apply parseCSVRow_csvQuote_roundtrip; [discriminate|].
  intros v Hv. cbn [In] in Hv.
  destruct Hv as [<-|[<-|[<-|[]]]]; split; reflexivity.
Defined.

(** The sample values satisfy the conditions of the round trip when the
    date does. *)
Lemma generateSampleData_values (today : string) :
  JS.includes today (String JS.dquote "") = false ->
  JS.trim today = today ->
  forall v, In v (map snd (generateSampleData today)) ->
    JS.includes v (String JS.dquote "") = false /\ JS.trim v = v.
Proof.
  intros Hq Ht v Hv. cbn [generateSampleData map snd In] in Hv.
  repeat (destruct Hv as [<-|Hv]; [split; first [reflexivity | assumption]|]).
  destruct Hv.
Qed.

(** X3. The template read back: for a date text without double quote
    and trimmed, the header line of the template tokenizes to the expected
    headers, which validate with nothing missing and nothing extra, the
    sample line tokenizes to the sample values, and the two lines
    normalize to the expected headers and the one record of the sample
    data. *)
Theorem generateCSVContent_roundtrip (today : string) :
  JS.includes today (String JS.dquote "") = false ->
  JS.trim today = today ->
  rowValues generateCSVHeader = EXPECTED_SHEET_HEADERS
  /\ validateSheetStructure (rowValues generateCSVHeader) = mkValidation true [] [] ∅
  /\ rowValues (sampleRow today) = map snd (generateSampleData today)
  /\ parseRows [generateCSVHeader; sampleRow today]
     = ([list_to_map (generateSampleData today)], EXPECTED_SHEET_HEADERS).
Proof.
  intros Hq Ht.
  assert (Hrow : rowValues (sampleRow today) = map snd (generateSampleData today)).
  { unfold rowValues, sampleRow.
    rewrite parseCSVRow_join;
      [| discriminate | now apply generateSampleData_values].
    rewrite <- (map_id (map snd (generateSampleData today))) at 2.
    apply map_ext_in. intros v Hv. apply stripQuotes_id.
    now apply (generateSampleData_values today Hq Ht). }
  split; [vm_compute; reflexivity|]. split; [vm_compute; reflexivity|].
  split; [exact Hrow|].
  rewrite parseRows_unfold. cbn [hd tl]. unfold parseDataRows. cbn [fold_left].
  unfold parseDataRow. rewrite buildRow_eq. cbv zeta. rewrite Hrow.
  clear Hq Ht Hrow. destruct today as [|c today]; vm_compute; reflexivity.
Qed.

Lemma generateCSVContent_roundtrip_witness :
  parseRows [generateCSVHeader; sampleRow "12/1/2024"]
  = ([list_to_map (generateSampleData "12/1/2024")], EXPECTED_SHEET_HEADERS).
Proof.
  exact (proj2 (proj2 (proj2
    (generateCSVContent_roundtrip "12/1/2024" eq_refl eq_refl)))).
Defined.

(* ===================================================================== *)
(** ** Further properties of the resolver and the validator *)
(* ===================================================================== *)

Lemma find_all_false {A} (p : A -> bool) (l : list A) :
  (forall x, In x l -> p x = false) -> List.find p l = None.
Proof.
  induction l as [|x l IH]; intros H; [reflexivity|].
  cbn [List.find]. rewrite (H x (or_introl eq_refl)).
  apply IH. intros y Hy. apply H. now right.
Qed.

Lemma find_over_app {A} (p : A -> bool) (l m : list A) :
  List.find p (l ++ m)
  = match List.find p l with Some x => Some x | None => List.find p m end.
Proof.
  induction l as [|x l IH]; [reflexivity|].
  cbn [app List.find]. destruct (p x); [reflexivity | exact IH].
Qed.

Lemma toLowerCase_nonempty (s : string) : s <> "" -> JS.toLowerCase s <> "".
Proof. destruct s; [congruence | discriminate]. Qed.

Lemma truthyOpt_true (m : option string) :
  JS.truthyOpt m = true <-> exists s, m = Some s /\ s <> "".
Proof.
  destruct m as [s|]; cbn [JS.truthyOpt].
  - rewrite truthy_true. split; [eauto|]. intros [s' [E H]]. congruence.
  - split; [discriminate|]. intros [s [E _]]. discriminate E.
Qed.

Lemma findVariation_some (variations sheetHeaders : list string) (h : string) :
  findVariation variations sheetHeaders = Some h ->
  In h sheetHeaders /\ h <> ""
  /\ exists v, In v variations /\ variationHit v h = true.
Proof.
  induction variations as [|v vs IH]; [discriminate|].
  cbn [findVariation].
  destruct (JS.truthyOpt (List.find (variationHit v) sheetHeaders)) eqn:Ht.
  - intros E. rewrite E in Ht. apply truthyOpt_true in Ht.
    destruct Ht as [s [Es Hs]]. injection Es as <-.
    apply find_some in E. destruct E as [Hin Hhit].
    split; [exact Hin|]. split; [exact Hs|]. exists v. split; [now left | exact Hhit].
  - intros E. destruct (IH E) as [H1 [H2 [w [Hw Hhit]]]].
    split; [exact H1|]. split; [exact H2|]. exists w. split; [now right | exact Hhit].
Qed.

Lemma findColumnHeader_sound_aux (formFieldName : string) (sheetHeaders : list string)
    (h : string) :
  findColumnHeader formFieldName sheetHeaders = Some h ->
  In h sheetHeaders /\ h <> ""
  /\ exists f, In f FORM_FIELDS /\ formKey f = formFieldName
       /\ (h = displayName f
           \/ JS.toLowerCase h = JS.toLowerCase (displayName f)
           \/ exists v, In v (variantNames f) /\ variationHit v h = true).
Proof.
  unfold findColumnHeader.
  destruct (List.find _ FORM_FIELDS) as [f|] eqn:Hf; [|discriminate].
  apply find_some in Hf. destruct Hf as [Hin Hk]. apply String.eqb_eq in Hk.
  cbv zeta. destruct (existsb _ sheetHeaders) eqn:He.
  - intros E. injection E as <-.
    apply existsb_exists in He. destruct He as [x [Hx Hxe]].
    apply String.eqb_eq in Hxe. subst x.
    split; [exact Hx|]. split.
    + apply truthy_true. now apply FORM_FIELDS_not_sheetId.
    + exists f. tauto.
  - destruct (JS.truthyOpt (List.find _ sheetHeaders)) eqn:Ht.
    + intros E. rewrite E in Ht. apply truthyOpt_true in Ht.
      destruct Ht as [s [Es Hs]]. injection Es as <-.
      apply find_some in E. destruct E as [Hx Hxe]. apply String.eqb_eq in Hxe.
      split; [exact Hx|]. split; [exact Hs|]. exists f. tauto.
    + intros E. apply findVariation_some in E. destruct E as [H1 [H2 Hv]].
      split; [exact H1|]. split; [exact H2|]. exists f.
      split; [exact Hin|]. split; [exact Hk|]. right. right. exact Hv.
Qed.

(** X4. What [findColumnHeader] returns is always one of the observed
    headers, never the empty string, and it belongs to the field of that
    form key: it is its display name, or equal to it ignoring case, or it
    contains or is contained in one of the field's variations ignoring
    case. *)
Theorem findColumnHeader_sound (formFieldName : string) (sheetHeaders : list string)
    (h : string) :
  findColumnHeader formFieldName sheetHeaders = Some h ->
  In h sheetHeaders /\ h <> ""
  /\ exists f, In f FORM_FIELDS /\ formKey f = formFieldName
       /\ (h = displayName f
           \/ JS.toLowerCase h = JS.toLowerCase (displayName f)
           \/ exists v, In v (variantNames f) /\ variationHit v h = true).
Proof. apply findColumnHeader_sound_aux. Qed.

Lemma findColumnHeader_sound_witness :
  In "Total Cost" ["Name"; "Total Cost"] /\ "Total Cost" <> "".
Proof.
  assert (E : findColumnHeader "budget" ["Name"; "Total Cost"] = Some "Total Cost")
    by (vm_compute; reflexivity).
  destruct (findColumnHeader_sound "budget" ["Name"; "Total Cost"] "Total Cost" E)
    as [H1 [H2 _]].
  exact (conj H1 H2).
Defined.

Lemma findVariation_empty_first (variations rest : list string) :
  findVariation variations ("" :: rest) = None.
Proof.
  induction variations as [|v vs IH]; [reflexivity|].
  cbn [findVariation List.find].
  assert (Hhit : variationHit v "" = true).
  { unfold variationHit. cbn [JS.toLowerCase]. rewrite includes_empty. apply orb_true_r. }
  rewrite Hhit. cbn [JS.truthyOpt]. exact IH.
Qed.

(** X5. An empty header in the first column hides every later column
    from the variation tier: a field whose display name equals no later
    header, even ignoring case, is not found, whatever the later headers
    are. *)
Theorem findColumnHeader_empty_first (f : FormField) (rest : list string) :
  In f FORM_FIELDS ->
  (forall h, In h rest -> JS.toLowerCase h <> JS.toLowerCase (displayName f)) ->
  findColumnHeader (formKey f) ("" :: rest) = None.
Proof.
  intros Hin Hrest. unfold findColumnHeader. rewrite (find_formKey f Hin). cbv zeta.
  destruct (FORM_FIELDS_not_sheetId f Hin) as [Ht _]. apply truthy_true in Ht.
  assert (He : existsb (String.eqb (displayName f)) ("" :: rest) = false).
  { apply not_true_is_false. intros He. apply existsb_exists in He.
    destruct He as [x [[<-|Hx] Hxe]]; apply String.eqb_eq in Hxe.
    - congruence.
    - apply (Hrest x Hx). now rewrite Hxe. }
  rewrite He.
  rewrite find_all_false.
  - cbn [JS.truthyOpt]. apply findVariation_empty_first.
  - intros x [<-|Hx]; apply String.eqb_neq.
    + cbn [JS.toLowerCase]. intros E. symmetry in E. revert E.
      now apply toLowerCase_nonempty.
    + now apply Hrest.
Qed.

Lemma findColumnHeader_empty_first_witness :
  findColumnHeader "budget" [""; "amount"; "Total Cost"; "price"] = None.
Proof.
  apply (findColumnHeader_empty_first (mkField "budget" "Budget" true number None)
           ["amount"; "Total Cost"; "price"]).
  - vm_compute. tauto.
  - intros h Hh. cbn [In] in Hh.
    destruct Hh as [<-|[<-|[<-|[]]]]; vm_compute; discriminate.
Defined.

Lemma findVariation_app (variations sheetHeaders more : list string) :
  is_Some (findVariation variations sheetHeaders) ->
  is_Some (findVariation variations (sheetHeaders ++ more)).
Proof.
  induction variations as [|v vs IH]; [intros [x Hx]; discriminate Hx|].
  cbn [findVariation]. rewrite find_over_app.
  destruct (List.find (variationHit v) sheetHeaders) as [x|] eqn:Hf.
  - destruct (JS.truthyOpt (Some x)); [eauto | exact IH].
  - cbn [JS.truthyOpt]. intros H.
    destruct (JS.truthyOpt (List.find (variationHit v) more)) eqn:Ht; [|now apply IH].
    apply truthyOpt_true in Ht. destruct Ht as [s [-> _]]. eauto.
Qed.

(** A field found among some columns is found when columns are added
    after them. *)
Lemma findColumnHeader_app (formFieldName : string) (sheetHeaders more : list string) :
  is_Some (findColumnHeader formFieldName sheetHeaders) ->
  is_Some (findColumnHeader formFieldName (sheetHeaders ++ more)).
Proof.
  unfold findColumnHeader.
  destruct (List.find _ FORM_FIELDS) as [f|]; [|exact (fun H => H)].
  cbv zeta. rewrite existsb_app, find_over_app.
  destruct (existsb _ sheetHeaders); [cbn [orb]; eauto|]. cbn [orb].
  destruct (existsb _ more); [eauto|].
  destruct (List.find _ sheetHeaders) as [x|] eqn:Hf.
  - destruct (JS.truthyOpt (Some x)); [eauto | apply findVariation_app].
  - cbn [JS.truthyOpt]. intros H.
    destruct (JS.truthyOpt (List.find _ more)) eqn:Ht; [|now apply findVariation_app].
    apply truthyOpt_true in Ht. destruct Ht as [s [-> _]]. eauto.
Qed.

Lemma truthyOpt_findColumnHeader (formFieldName : string) (sheetHeaders : list string) :
  JS.truthyOpt (findColumnHeader formFieldName sheetHeaders) = true
  <-> is_Some (findColumnHeader formFieldName sheetHeaders).
Proof.
  rewrite truthyOpt_true. split.
  - intros [s [E _]]. eauto.
  - intros [s E]. exists s. split; [exact E|].
    now apply (findColumnHeader_sound_aux formFieldName sheetHeaders s).
Qed.

Lemma checkMissing_fold (sheetHeaders : list string) (fields : list FormField) :
  forall missing : list string,
    fold_left (checkMissing sheetHeaders) fields missing
    = missing ++ map displayName
        (List.filter (fun f =>
           required f
           && negb (JS.truthyOpt (findColumnHeader (formKey f) sheetHeaders))) fields).
Proof.
  induction fields as [|f fields IH]; intros missing.
  - cbn. now rewrite app_nil_r.
  - cbn [fold_left List.filter]. rewrite IH. unfold checkMissing.
    destruct (required f); cbn [andb]; [|reflexivity].
    destruct (negb _); [|reflexivity].
    cbn [map]. now rewrite <- app_assoc.
Qed.

Lemma missingFields_filter (sheetHeaders : list string) :
  missingFields (validateSheetStructure sheetHeaders)
  = map displayName
      (List.filter (fun f =>
         required f
         && negb (JS.truthyOpt (findColumnHeader (formKey f) sheetHeaders))) FORM_FIELDS).
Proof.
  unfold validateSheetStructure. cbv zeta.
  destruct (fold_left checkExtra sheetHeaders ([], ∅)) as [extra sugg].
  cbn [missingFields]. now rewrite checkMissing_fold.
Qed.

Lemma isValid_missingFields (sheetHeaders : list string) :
  isValid (validateSheetStructure sheetHeaders) = true
  <-> missingFields (validateSheetStructure sheetHeaders) = [].
Proof.
  unfold validateSheetStructure. cbv zeta.
  destruct (fold_left checkExtra sheetHeaders ([], ∅)) as [extra sugg].
  cbn [isValid missingFields].
  destruct (fold_left (checkMissing sheetHeaders) FORM_FIELDS []); cbn.
  - tauto.
  - split; discriminate.
Qed.

Lemma isValid_iff (sheetHeaders : list string) :
  isValid (validateSheetStructure sheetHeaders) = true
  <-> forall f, In f FORM_FIELDS -> required f = true ->
        is_Some (findColumnHeader (formKey f) sheetHeaders).
Proof.
  rewrite isValid_missingFields, missingFields_filter. split.
  - intros E f Hin Hreq. apply truthyOpt_findColumnHeader.
    destruct (JS.truthyOpt (findColumnHeader (formKey f) sheetHeaders)) eqn:Ht;
      [reflexivity|].
    exfalso. apply map_eq_nil in E.
    assert (Hf : In f (List.filter (fun f =>
                   required f
                   && negb (JS.truthyOpt (findColumnHeader (formKey f) sheetHeaders)))
                   FORM_FIELDS)).
    { apply filter_In. split; [exact Hin|]. now rewrite Hreq, Ht. }
    rewrite E in Hf. destruct Hf.
  - intros H.
    destruct (List.filter _ FORM_FIELDS) as [|f l] eqn:E; [reflexivity|].
    exfalso.
    assert (Hf : In f (f :: l)) by now left.
    rewrite <- E in Hf. apply filter_In in Hf. destruct Hf as [Hin Hb].
    apply andb_true_iff in Hb. destruct Hb as [Hreq Hn].
    apply negb_true_iff in Hn.
    apply (H f Hin) in Hreq. apply truthyOpt_findColumnHeader in Hreq. congruence.
Qed.

(** X6. The report of the validator: [missingFields] is, in schema
    order, the display names of the required fields the resolver does not
    find, and [isValid] holds exactly when every required field resolves to
    some observed header; the fields that are not required and the extra
    headers play no part. *)
Theorem validateSheetStructure_isValid (sheetHeaders : list string) :
  missingFields (validateSheetStructure sheetHeaders)
  = map displayName
      (List.filter (fun f =>
         required f
         && negb (JS.truthyOpt (findColumnHeader (formKey f) sheetHeaders))) FORM_FIELDS)
  /\ (isValid (validateSheetStructure sheetHeaders) = true
      <-> forall f, In f FORM_FIELDS -> required f = true ->
            exists h, In h sheetHeaders
                      /\ findColumnHeader (formKey f) sheetHeaders = Some h).
Proof.
  split; [apply missingFields_filter|]. rewrite isValid_iff.
  split; intros H f Hin Hreq.
  - destruct (H f Hin Hreq) as [h Hh]. exists h. split; [|exact Hh].
    now apply (findColumnHeader_sound_aux (formKey f) sheetHeaders h).
  - destruct (H f Hin Hreq) as [h [_ Hh]]. eauto.
Qed.

Lemma validateSheetStructure_isValid_witness :
  isValid (validateSheetStructure ["campaign"; "followers"; "Start"; "brand";
                                   "end"; "category"; "urgency"; "cost";
                                   "scope"; "channels"]) = true.
Proof.
  apply (proj2 (validateSheetStructure_isValid
                  ["campaign"; "followers"; "Start"; "brand"; "end"; "category";
                   "urgency"; "cost"; "scope"; "channels"])).
  intros f Hf Hreq.
  each_field Hf by
    (first [ discriminate Hreq
           | eexists; split; [|vm_compute; reflexivity]; vm_compute; tauto ]).
Defined.

(** X7. Columns added after the others never make a valid sheet
    invalid. *)
Theorem validateSheetStructure_app (sheetHeaders more : list string) :
  isValid (validateSheetStructure sheetHeaders) = true ->
  isValid (validateSheetStructure (sheetHeaders ++ more)) = true.
Proof.
  rewrite !isValid_iff. intros H f Hin Hreq.
  apply findColumnHeader_app. now apply H.
Qed.

Lemma validateSheetStructure_app_witness :
  isValid (validateSheetStructure (EXPECTED_SHEET_HEADERS ++ [""; "Sheet ID"])) = true.
Proof.
  apply validateSheetStructure_app. vm_compute. reflexivity.
Defined.

Lemma obj_set_lookup (k v h : string) (o : gmap string string) :
  JS.obj_set k v o !! h
  = if String.eqb h k && negb (String.eqb h "__proto__") then Some v else o !! h.
Proof.
  unfold JS.obj_set.
  destruct (String.eqb_spec h k) as [->|Hne]; cbn [andb].
  - destruct (String.eqb k "__proto__"); [reflexivity|]. cbn [negb].
    apply lookup_insert_eq.
  - destruct (String.eqb k "__proto__"); [reflexivity|].
    apply lookup_insert_ne. congruence.
Qed.

(** The suggestions after one header. *)
Lemma checkExtra_lookup (extra : list string) (sugg : gmap string string)
    (x h : string) :
  (checkExtra (extra, sugg) x).2 !! h
  = if String.eqb h x && negb (isExpected h) && negb (String.eqb h "__proto__")
    then match suggestionFor h with Some d => Some d | None => sugg !! h end
    else sugg !! h.
Proof.
  unfold checkExtra. fold (isExpected x).
  destruct (String.eqb_spec h x) as [->|Hne]; cbn [andb].
  - destruct (isExpected x); cbn [negb andb snd]; [reflexivity|].
    unfold suggestionFor.
    destruct (List.find _ FORM_FIELDS) as [f|]; cbn [fmap option_fmap option_map].
    + rewrite obj_set_lookup, String.eqb_refl. cbn [andb].
      destruct (negb (String.eqb x "__proto__")); reflexivity.
    + destruct (negb (String.eqb x "__proto__")); reflexivity.
  - destruct (isExpected x); cbn [negb snd]; [reflexivity|].
    destruct (List.find _ FORM_FIELDS) as [f|]; [|reflexivity].
    rewrite obj_set_lookup.
    destruct (String.eqb_spec h x); [contradiction | reflexivity].
Qed.

(** The suggestions after all the headers. *)
Lemma checkExtra_fold_lookup (sheetHeaders : list string) (h : string) :
  forall (extra : list string) (sugg : gmap string string),
    (fold_left checkExtra sheetHeaders (extra, sugg)).2 !! h
    = if existsb (String.eqb h) sheetHeaders && negb (isExpected h)
         && negb (String.eqb h "__proto__")
      then match suggestionFor h with Some d => Some d | None => sugg !! h end
      else sugg !! h.
Proof.
  induction sheetHeaders as [|x hs IH]; intros extra sugg; [reflexivity|].
  cbn [fold_left existsb].
  pose proof (checkExtra_lookup extra sugg x h) as Hstep.
  destruct (checkExtra (extra, sugg) x) as [extra1 sugg1].
  rewrite IH. cbn [snd] in Hstep. rewrite Hstep.
  destruct (suggestionFor h); destruct (String.eqb h x);
    destruct (existsb (String.eqb h) hs); destruct (negb (isExpected h));
    destruct (negb (String.eqb h "__proto__")); reflexivity.
Qed.

Lemma suggestionFor_some (h d : string) :
  suggestionFor h = Some d ->
  In d EXPECTED_SHEET_HEADERS
  /\ JS.includes (JS.toLowerCase d) (JS.toLowerCase h)
     || JS.includes (JS.toLowerCase h) (JS.toLowerCase d) = true.
Proof.
  unfold suggestionFor.
  destruct (List.find _ FORM_FIELDS) as [f|] eqn:Hf; [|discriminate].
  cbn [fmap option_fmap option_map]. intros E. injection E as <-.
  apply find_some in Hf. destruct Hf as [Hin Hc].
  split; [|exact Hc]. unfold EXPECTED_SHEET_HEADERS. now apply in_map.
Qed.

(** X8. The suggestions of the validator: every header reported as
    extra, except [__proto__], is given the first canonical display name
    that contains it or is contained in it ignoring case, when there is
    one; nothing else gets a suggestion; and an empty header, being
    contained in every name, is always given Campaign Name. *)
Theorem validateSheetStructure_suggestions (sheetHeaders : list string) :
  (forall h, In h (extraFields (validateSheetStructure sheetHeaders)) ->
     h <> "__proto__" ->
     suggestions (validateSheetStructure sheetHeaders) !! h = suggestionFor h)
  /\ (forall h d, suggestions (validateSheetStructure sheetHeaders) !! h = Some d ->
        In h (extraFields (validateSheetStructure sheetHeaders))
        /\ In d EXPECTED_SHEET_HEADERS
        /\ JS.includes (JS.toLowerCase d) (JS.toLowerCase h)
           || JS.includes (JS.toLowerCase h) (JS.toLowerCase d) = true)
  /\ (In "" sheetHeaders ->
      suggestions (validateSheetStructure sheetHeaders) !! "" = Some "Campaign Name").
Proof.
  assert (Hs : forall h,
             suggestions (validateSheetStructure sheetHeaders) !! h
             = if existsb (String.eqb h) sheetHeaders && negb (isExpected h)
                  && negb (String.eqb h "__proto__")
               then suggestionFor h else None).
  { intros h. pose proof (checkExtra_fold_lookup sheetHeaders h [] ∅) as H.
    unfold validateSheetStructure. cbv zeta.
    destruct (fold_left checkExtra sheetHeaders ([], ∅)) as [extra sugg].
    cbn [suggestions]. cbn [snd] in H. rewrite H, lookup_empty.
    destruct (_ && _); destruct (suggestionFor h); reflexivity. }
  assert (He : forall h, In h (extraFields (validateSheetStructure sheetHeaders))
                 <-> existsb (String.eqb h) sheetHeaders && negb (isExpected h) = true).
  { intros h. rewrite extraFields_filter, filter_In, andb_true_iff, existsb_exists.
    split.
    - intros [H1 H2]. split; [|exact H2]. exists h. split; [exact H1|].
      apply String.eqb_refl.
    - intros [[x [H1 Hx]] H2]. apply String.eqb_eq in Hx. subst x. tauto. }
  split; [|split].
  - intros h Hin Hp. rewrite Hs. apply He in Hin. rewrite Hin.
    apply String.eqb_neq in Hp. now rewrite Hp.
  - intros h d E. rewrite Hs in E.
    destruct (existsb (String.eqb h) sheetHeaders && negb (isExpected h)) eqn:Hc;
      [|discriminate E].
    split; [now apply He|].
    destruct (negb (String.eqb h "__proto__")); [|discriminate E].
    now apply suggestionFor_some.
  - intros Hin. rewrite Hs.
    assert (Hex : existsb (String.eqb "") sheetHeaders = true).
    { apply existsb_exists. exists "". split; [exact Hin | reflexivity]. }
    rewrite Hex. vm_compute. reflexivity.
Qed.

Lemma validateSheetStructure_suggestions_witness :
  suggestions (validateSheetStructure ["Campaign Name"; "Brand"; ""]) !! "Brand"
  = Some "Brand Name"
  /\ suggestions (validateSheetStructure ["Campaign Name"; "Brand"; ""]) !! ""
     = Some "Campaign Name".
Proof.
  destruct (validateSheetStructure_suggestions ["Campaign Name"; "Brand"; ""])
    as [H1 [_ H3]].
  split.
  - rewrite H1; [vm_compute; reflexivity | vm_compute; tauto | discriminate].
  - apply H3. vm_compute. tauto.
Defined.

(* ===================================================================== *)
(** ** Further properties of [fetchSheetData] *)
(* ===================================================================== *)

Lemma trimStart_empty_iff (s : string) :
  JS.trimStart s = "" <-> allWhiteSpace s = true.
Proof.
  induction s as [|c s IH]; [cbn; tauto|].
  cbn [JS.trimStart allWhiteSpace]. destruct (JS.isWhiteSpace c); cbn [andb].
  - exact IH.
  - split; discriminate.
Qed.

Lemma trimEnd_empty (s : string) : noLeadingSpace s -> JS.trimEnd s = "" -> s = "".
Proof.
  destruct s as [|c s]; [reflexivity|]. cbn [noLeadingSpace]. intros Hc.
  rewrite trimEnd_cons, Hc. destruct (JS.trimEnd s); discriminate.
Qed.

(** The strings that [trim] empties are the strings of white space. *)
Lemma trim_empty_iff (s : string) : JS.trim s = "" <-> allWhiteSpace s = true.
Proof.
  rewrite <- trimStart_empty_iff. unfold JS.trim. split.
  - apply trimEnd_empty, trimStart_noLeadingSpace.
  - now intros ->.
Qed.

Lemma trim_empty_eqb (s : string) :
  negb (JS.truthy (JS.trim s)) = allWhiteSpace s.
Proof.
  unfold JS.truthy. rewrite negb_involutive.
  destruct (String.eqb_spec (JS.trim s) "") as [E|E].
  - symmetry. now apply trim_empty_iff.
  - destruct (allWhiteSpace s) eqn:Ha; [|reflexivity].
    exfalso. apply E. now apply trim_empty_iff.
Qed.

(** A text is white space exactly when each of its lines is. *)
Lemma split_allWhiteSpace (t : string) :
  forallb allWhiteSpace (JS.split JS.newline t) = allWhiteSpace t.
Proof.
  induction t as [|c t IH]; [reflexivity|].
  cbn [JS.split allWhiteSpace].
  destruct (Ascii.eqb_spec c JS.newline) as [->|_].
  - cbn [forallb allWhiteSpace]. now rewrite IH.
  - pose proof (split_not_nil JS.newline t) as Hn.
    destruct (JS.split JS.newline t) as [|f fs]; [congruence|].
    cbn [forallb allWhiteSpace] in *. rewrite <- IH. now rewrite andb_assoc.
Qed.

Lemma filter_nil_forallb {A} (p : A -> bool) (l : list A) :
  List.filter p l = [] <-> forallb (fun x => negb (p x)) l = true.
Proof.
  induction l as [|x l IH]; [cbn; tauto|].
  cbn [List.filter forallb]. destruct (p x); cbn [negb andb].
  - split; discriminate.
  - exact IH.
Qed.

Lemma forallb_ext {A} (p p' : A -> bool) (l : list A) :
  (forall x, p x = p' x) -> forallb p l = forallb p' l.
Proof.
  intros E. induction l as [|x l IH]; [reflexivity|].
  cbn [forallb]. now rewrite E, IH.
Qed.

(** A payload has no non-blank line exactly when it is white space. *)
Lemma nonBlankLines_nil_iff (csvText : string) :
  nonBlankLines csvText = [] <-> JS.trim csvText = "".
Proof.
  unfold nonBlankLines. rewrite filter_nil_forallb, trim_empty_iff.
  rewrite <- split_allWhiteSpace.
  rewrite (forallb_ext (fun x => negb (JS.truthy (JS.trim x))) allWhiteSpace);
    [reflexivity|].
  intros x. apply trim_empty_eqb.
Qed.



(** The key of a built record is the composite key. *)
Lemma buildRowOf_key (headerLine row : string) (rowData : gmap string string)
    (rowKey : string) :
  buildRowOf headerLine row = Some (rowData, rowKey) ->
  rowKey = rowKeyOf headerLine row.
Proof.
  unfold buildRowOf. rewrite buildRow_eq. cbv zeta.
  destruct (forallb isBlank _); [discriminate|].
  intros E. injection E as _ <-. now rewrite mapHeaders_key, append_empty_l.
Qed.

Lemma parseDataRow_kept (headerLine : string) (processed : list string)
    (st : gset string * list (gmap string string)) (row : string) :
  keptInvariant headerLine processed st ->
  keptInvariant headerLine (processed ++ [row]) (parseDataRows headerLine [row] st).
Proof.
  intros [keptRows [Hsub [Hnd [Hseen Hf2]]]].
  unfold parseDataRows. cbn [fold_left]. unfold parseDataRow.
  destruct st as [seen parsedData]. cbn [fst snd] in *.
  fold (buildRowOf headerLine row).
  destruct (buildRowOf headerLine row) as [[rowData rowKey]|] eqn:Hb.
  2:{ exists keptRows. split; [now apply sublist_inserts_r | tauto]. }
  destruct (bool_decide (rowKey ∈ seen)) eqn:Hd.
  { exists keptRows. split; [now apply sublist_inserts_r | tauto]. }
  apply bool_decide_eq_false_1 in Hd.
  pose proof (buildRowOf_key _ _ _ _ Hb) as Hk. subst rowKey.
  exists (keptRows ++ [row]). cbn [fst snd]. rewrite map_app. cbn [map].
  split; [|split; [|split]].
  - now apply sublist_app.
  - apply NoDup_app. split; [exact Hnd|]. split.
    + intros x Hx Hx'. apply list_elem_of_In in Hx.
      apply list_elem_of_singleton in Hx'. subst x. apply Hd. now apply Hseen.
    + apply NoDup_singleton.
  - intros k. rewrite in_app_iff, elem_of_union, elem_of_singleton, Hseen. cbn [In].
    split; [intros [->|H]; [right; now left | now left]|].
    intros [H|[->|[]]]; [now right | now left].
  - apply Forall2_app; [exact Hf2|]. constructor; [exact Hb | constructor].
Qed.

Lemma parseDataRows_kept (headerLine : string) (rows : list string) :
  forall (processed : list string) (st : gset string * list (gmap string string)),
    keptInvariant headerLine processed st ->
    keptInvariant headerLine (processed ++ rows) (parseDataRows headerLine rows st).
Proof.
  induction rows as [|row rows IH]; intros processed st Hinv.
  - rewrite app_nil_r. exact Hinv.
  - replace (processed ++ row :: rows) with ((processed ++ [row]) ++ rows)
      by now rewrite <- app_assoc.
    change (parseDataRows headerLine (row :: rows) st)
      with (parseDataRows headerLine rows (parseDataRows headerLine [row] st)).
    apply IH. now apply parseDataRow_kept.
Qed.

Lemma parseDataRows_length (headerLine : string) (rows : list string) :
  forall st : gset string * list (gmap string string),
    (length (parseDataRows headerLine rows st).2 <= length st.2 + length rows)%nat.
Proof.
  induction rows as [|row rows IH]; intros st; [cbn; lia|].
  change (parseDataRows headerLine (row :: rows) st)
    with (parseDataRows headerLine rows (parseDataRows headerLine [row] st)).
  specialize (IH (parseDataRows headerLine [row] st)).
  assert (length (parseDataRows headerLine [row] st).2 <= S (length st.2))%nat.
  { unfold parseDataRows. cbn [fold_left]. unfold parseDataRow.
    destruct st as [seen parsedData].
    destruct (buildRow _ _ _ _ row) as [[rowData rowKey]|]; [|cbn; lia].
    destruct (bool_decide (rowKey ∈ seen)); cbn; [lia|].
    rewrite length_app. cbn. lia. }
  cbn [length]. lia.
Qed.

(** X10. The records of a run are, in the order of the data rows, the
    records of some of these rows: rows that were not skipped, whose keys
    are pairwise distinct, and among whose keys is the key of every data row
    with a retained value that is not blank; so there are at most as many
    records as data rows. *)
Theorem parseRows_distinct_keys (headerLine : string) (dataRows : list string) :
  (exists keptRows : list string,
      sublist keptRows dataRows
      /\ NoDup (map (rowKeyOf headerLine) keptRows)
      /\ Forall2 (fun rowData row =>
                    buildRowOf headerLine row
                    = Some (rowData, rowKeyOf headerLine row))
                 (parseRows (headerLine :: dataRows)).1 keptRows
      /\ (forall row, In row dataRows ->
            forallb isBlank (retainedOf headerLine row) = false ->
            In (rowKeyOf headerLine row) (map (rowKeyOf headerLine) keptRows)))
  /\ (length (parseRows (headerLine :: dataRows)).1 <= length dataRows)%nat.
Proof.
  rewrite parseRows_unfold. cbn [hd tl fst]. split.
  - destruct (parseDataRows_kept headerLine dataRows [] (∅, []))
      as [keptRows [Hsub [Hnd [Hseen Hf2]]]].
    + exists []. cbn [fst snd map]. split; [constructor|]. split; [constructor|].
      split; [|constructor]. intros k. cbn [In]. set_solver.
    + exists keptRows. rewrite app_nil_l in Hsub.
      split; [exact Hsub|]. split; [exact Hnd|]. split; [exact Hf2|].
      intros row Hin Hb. apply Hseen.
      destruct (buildRowOf_nonblank headerLine row Hb) as [rowData Hr].
      unfold parseDataRows. unfold buildRowOf in Hr.
      now apply (fold_seen_covers _ _ _ _ dataRows (∅, []) row rowData).
  - pose proof (parseDataRows_length headerLine dataRows (∅, [])) as H.
    cbn [snd length Nat.add] in H. exact H.
Qed.

Lemma parseRows_distinct_keys_witness :
  In "Foo,s1" ["Foo,s1"; "Bar,s3"; "Foo,s2"]
  /\ forallb isBlank (retainedOf "Name,Sheet ID" "Foo,s1") = false
  /\ (parseRows ["Name,Sheet ID"; "Foo,s1"; "Bar,s3"; "Foo,s2"]).1
     = [ {[ "Name" := "Foo"; "_sheetId" := "s1" ]};
         {[ "Name" := "Bar"; "_sheetId" := "s3" ]} ]
  /\ exists keptRows : list string,
       sublist keptRows ["Foo,s1"; "Bar,s3"; "Foo,s2"]
       /\ In (rowKeyOf "Name,Sheet ID" "Foo,s1")
            (map (rowKeyOf "Name,Sheet ID") keptRows).
Proof.
  split; [now left|]. split; [reflexivity|]. split; [vm_compute; reflexivity|].
  destruct (proj1 (parseRows_distinct_keys "Name,Sheet ID"
                     ["Foo,s1"; "Bar,s3"; "Foo,s2"]))
    as [keptRows [Hsub [_ [_ Hall]]]].
  exists keptRows. split; [exact Hsub|].
  apply Hall; [now left | reflexivity].
Defined.

(** X11. A data row whose retained values are all empty or white space
    is skipped, whatever its excluded columns hold: removing it from the
    input changes nothing. *)
Theorem parseRows_blank_row (headerLine : string) (before : list string)
    (row : string) (after : list string) :
  forallb isBlank (retainedOf headerLine row) = true ->
  parseRows (headerLine :: before ++ row :: after)
  = parseRows (headerLine :: before ++ after).
Proof.
  intros Hb. rewrite !parseRows_unfold. cbn [hd tl]. f_equal. f_equal.
  unfold parseDataRows. rewrite !fold_left_app. cbn [fold_left]. f_equal.
  apply parseDataRow_unchanged. intros rowData rowKey E.
  rewrite buildRow_eq in E. cbv zeta in E. unfold retainedOf in Hb.
  rewrite Hb in E. discriminate E.
Qed.

Lemma parseRows_blank_row_witness :
  parseRows ("Name,Sheet ID,Budget" :: ["Foo,s1,10"] ++ " ,s2,  " :: ["Bar,s3,20"])
  = parseRows ("Name,Sheet ID,Budget" :: ["Foo,s1,10"] ++ ["Bar,s3,20"]).
Proof.
  apply parseRows_blank_row. vm_compute. reflexivity.
Defined.

Lemma filter_idx_from_zip {A B} (p : Z -> bool) (l : list A) :
  forall (m : list B) (i : Z),
    zip (JS.filter_idx_from p l i) (JS.filter_idx_from p m i)
    = JS.filter_idx_from p (zip l m) i.
Proof.
  induction l as [|x l IH]; intros m i; [reflexivity|].
  destruct m as [|y m].
  - cbn [JS.filter_idx_from zip zip_with].
    destruct (p i); [reflexivity|].
    destruct (JS.filter_idx_from p l (i + 1)); reflexivity.
  - cbn [JS.filter_idx_from zip zip_with].
    destruct (p i); cbn [zip zip_with]; [f_equal|]; apply IH.
Qed.

(** X12. The exclusion keeps headers and values aligned: pairing the
    retained headers with the retained values of a row is the same as
    pairing every header with the value of its own column and then removing
    the excluded columns. *)
Theorem retained_aligned (headerLine row : string) :
  zip (filteredHeadersOf headerLine) (retainedOf headerLine row)
  = JS.filter_idx
      (keepColumn (emailTemplateIndexOf headerLine) (idColumnIndexOf headerLine)
         (sheetIdIndexOf headerLine))
      (zip (rowValues headerLine) (rowValues row)).
Proof.
  unfold filteredHeadersOf, retainedOf, retained, JS.filter_idx.
  apply filter_idx_from_zip.
Qed.

Lemma or_else_empty (o : option string) : JS.or_else o "" = default "" o.
Proof.
  destruct o as [s|]; [|reflexivity]. cbn [JS.or_else default].
  unfold JS.truthy. destruct (String.eqb_spec s "") as [->|_]; reflexivity.
Qed.

(** Headers stored under other keys leave a key as it is. *)
Lemma mapHeaders_lookup_untouched (k : string) (filteredHeaders : list string) :
  forall (idx : nat) (filteredValues : list string)
         (rowData : gmap string string) (rowKey : string),
    (forall h, In h filteredHeaders -> mappedHeader h <> k) ->
    (mapHeaders filteredHeaders idx filteredValues (rowData, rowKey)).1 !! k
    = rowData !! k.
Proof.
  induction filteredHeaders as [|header more IH]; intros idx fv rowData rowKey H;
    [reflexivity|].
  cbn [mapHeaders]. rewrite IH by (intros h Hh; apply H; now right).
  rewrite obj_set_lookup. fold (mappedHeader header).
  destruct (String.eqb_spec k (mappedHeader header)) as [E|_]; [|reflexivity].
  exfalso. apply (H header (or_introl eq_refl)). now symmetry.
Qed.

(** The last header stored under a key decides its value. *)
Lemma mapHeaders_lookup_last (k : string) (filteredHeaders : list string) :
  forall (idx : nat) (filteredValues : list string)
         (rowData : gmap string string) (rowKey : string) (j : nat) (header : string),
    filteredHeaders !! j = Some header ->
    mappedHeader header = k ->
    k <> "__proto__" ->
    (forall j' h', (j < j')%nat -> filteredHeaders !! j' = Some h' ->
                   mappedHeader h' <> k) ->
    (mapHeaders filteredHeaders idx filteredValues (rowData, rowKey)).1 !! k
    = Some (default "" (filteredValues !! (idx + j)%nat)).
Proof.
  induction filteredHeaders as [|h0 more IH];
    intros idx fv rowData rowKey j header Hj Hk Hp Hlater; [discriminate Hj|].
  cbn [mapHeaders]. destruct j as [|j].
  - cbn in Hj. injection Hj as ->.
    rewrite mapHeaders_lookup_untouched.
    + rewrite obj_set_lookup. fold (mappedHeader header). rewrite Hk, String.eqb_refl.
      apply String.eqb_neq in Hp. rewrite Hp. cbn [andb negb].
      now rewrite or_else_empty, Nat.add_0_r.
    + intros h Hh. apply list_elem_of_In, list_elem_of_lookup in Hh.
      destruct Hh as [i Hi]. apply (Hlater (S i) h); [lia | exact Hi].
  - cbn in Hj. rewrite (IH (S idx) fv _ _ j header Hj Hk Hp).
    + do 3 f_equal. lia.
    + intros j' h' Hlt Hj'. apply (Hlater (S j') h'); [lia | exact Hj'].
Qed.

(** X13. The value of a record under the key of a retained header is
    the row's value in that header's position, and the empty string when
    the row is too short to have one; when several retained headers have
    the same key, the last of them decides.  This holds for every key but
    [__proto__], under which nothing is stored, and [_sheetId], which the
    sheet-id value may overwrite. *)
Theorem buildRow_lookup (headerLine row : string) (rowData : gmap string string)
    (rowKey : string) (j : nat) (header : string) :
  buildRowOf headerLine row = Some (rowData, rowKey) ->
  filteredHeadersOf headerLine !! j = Some header ->
  mappedHeader header <> "__proto__" ->
  mappedHeader header <> "_sheetId" ->
  (forall j' h', (j < j')%nat -> filteredHeadersOf headerLine !! j' = Some h' ->
                 mappedHeader h' <> mappedHeader header) ->
  rowData !! mappedHeader header = Some (default "" (retainedOf headerLine row !! j)).
Proof.
  intros Hb Hj Hp Hs Hlater. unfold buildRowOf in Hb. rewrite buildRow_eq in Hb.
  cbv zeta in Hb. destruct (forallb isBlank _); [discriminate|].
  injection Hb as <- _.
  assert (Hm := mapHeaders_lookup_last (mappedHeader header)
                  (filteredHeadersOf headerLine) 0
                  (retained (emailTemplateIndexOf headerLine) (idColumnIndexOf headerLine)
                     (sheetIdIndexOf headerLine) (rowValues row))
                  ∅ "" j header Hj eq_refl Hp Hlater).
  cbn [Nat.add] in Hm.
  destruct (JS.truthyOpt _); [|exact Hm].
  rewrite obj_set_lookup.
  destruct (String.eqb_spec (mappedHeader header) "_sheetId"); [contradiction|].
  exact Hm.
Qed.

Lemma buildRow_lookup_witness :
  ({[ "Name" := "Foo"; "Budget" := "" ]} : gmap string string) !! "Budget"
  = Some (default "" (retainedOf "Name,budget,Budget" "Foo,10" !! 2%nat)).
Proof.
  assert (Hb : buildRowOf "Name,budget,Budget" "Foo,10"
               = Some ({[ "Name" := "Foo"; "Budget" := "" ]}, "Foo10"))
    by (vm_compute; reflexivity).
  refine (buildRow_lookup "Name,budget,Budget" "Foo,10" _ _ 2 "Budget" Hb eq_refl _ _ _).
  - vm_compute. discriminate.
  - vm_compute. discriminate.
  - intros j' h' Hlt Hj'. exfalso.
    apply lookup_lt_Some in Hj'. vm_compute in Hj'. lia.
Defined.

(* ===================================================================== *)
(** ** The dashboard page's copy of the loop *)
(* ===================================================================== *)

Lemma mappedHeader_not_formKey (h : string) :
  (forall f, In f FORM_FIELDS -> formKey f <> h) -> mappedHeader h = h.
Proof.
  intros H. unfold mappedHeader. rewrite findColumnHeader_expected.
  rewrite find_all_false; [reflexivity|].
  intros f Hf. apply String.eqb_neq. now apply H.
Qed.

Lemma mapHeaders_dashboard (filteredHeaders : list string) :
  forall (idx : nat) (filteredValues : list string) (st : gmap string string * string),
    (forall h, In h filteredHeaders -> mappedHeader h = h) ->
    mapHeaders filteredHeaders idx filteredValues st
    = Dashboard.mapHeaders filteredHeaders idx filteredValues st.
Proof.
  induction filteredHeaders as [|header more IH]; intros idx fv st H; [reflexivity|].
  cbn [mapHeaders Dashboard.mapHeaders]. destruct st as [rowData rowKey].
  fold (mappedHeader header). rewrite (H header (or_introl eq_refl)).
  apply IH. intros h Hh. apply H. now right.
Qed.

Lemma fold_left_ext {A B} (f g : A -> B -> A) (l : list B) :
  (forall a b, f a b = g a b) -> forall a, fold_left f l a = fold_left g l a.
Proof.
  intros E. induction l as [|b l IH]; intros a; [reflexivity|].
  cbn [fold_left]. now rewrite E, IH.
Qed.

(** X14. The dashboard page's own loop and [fetchSheetData] agree on
    every sheet none of whose retained headers is literally a form key:
    same records, same headers. *)
Theorem Dashboard_parseRows_agrees (rows : list string) :
  (forall h f, In h (filteredHeadersOf (hd "" rows)) -> In f FORM_FIELDS ->
               formKey f <> h) ->
  Dashboard.parseRows rows = parseRows rows.
Proof.
  intros H. unfold Dashboard.parseRows, parseRows. cbv zeta.
  rewrite (fold_left_ext
             (Dashboard.parseDataRow _ _ _ _)
             (parseDataRow (JS.findIndex isEmailTemplate (rowValues (hd "" rows)))
                (JS.findIndex isIdColumn (rowValues (hd "" rows)))
                (JS.findIndex isSheetId (rowValues (hd "" rows)))
                (filteredHeadersOf (hd "" rows)))); [reflexivity|].
  intros st row. unfold Dashboard.parseDataRow, parseDataRow.
  unfold Dashboard.buildRow, buildRow. cbv zeta.
  destruct st as [seen parsedData].
  destruct (forallb isBlank _); [reflexivity|].
  rewrite <- mapHeaders_dashboard; [reflexivity|].
  intros h Hh. apply mappedHeader_not_formKey. intros f Hf. now apply (H h f).
Qed.

Lemma Dashboard_parseRows_agrees_witness :
  Dashboard.parseRows ["Campaign Name,Sheet ID,Budget"; "Foo,s1,10"; "Foo,s2,10"]
  = parseRows ["Campaign Name,Sheet ID,Budget"; "Foo,s1,10"; "Foo,s2,10"].
Proof.
  apply Dashboard_parseRows_agrees.
  intros h f Hh Hf. vm_compute in Hh.
  destruct Hh as [<-|[<-|[]]];
    (each_field Hf by discriminate).
Defined.

(* ===================================================================== *)
(** ** [extractSheetId] *)
(* ===================================================================== *)

Lemma afterPrefix_some (p : string) :
  forall s rest, afterPrefix s p = Some rest -> s = p +:+ rest.
Proof.
  induction p as [|a p IH]; intros s rest H.
  - cbn in H. injection H as ->. reflexivity.
  - cbn [afterPrefix] in H. destruct s as [|b s]; [discriminate|].
    destruct (Ascii.eqb_spec a b) as [->|_]; [|discriminate].
    rewrite append_cons. f_equal. now apply IH.
Qed.

Lemma takeIdChars_prefix (s : string) :
  exists post, s = takeIdChars s +:+ post.
Proof.
  induction s as [|c s [post IH]]; [exists ""; reflexivity|].
  cbn [takeIdChars]. destruct (isIdChar c).
  - exists post. rewrite append_cons. now f_equal.
  - exists (String c s). reflexivity.
Qed.

Lemma takeIdChars_idempotent (s : string) :
  takeIdChars (takeIdChars s) = takeIdChars s.
Proof.
  induction s as [|c s IH]; [reflexivity|].
  cbn [takeIdChars]. destruct (isIdChar c) eqn:Hc; [|reflexivity].
  cbn [takeIdChars]. now rewrite Hc, IH.
Qed.

Lemma takeIdChars_app (id : string) (c : ascii) (rest : string) :
  takeIdChars id = id -> isIdChar c = false ->
  takeIdChars (id +:+ String c rest) = id.
Proof.
  revert c rest. induction id as [|d id IH]; intros c rest Hid Hc.
  - rewrite append_empty_l. cbn [takeIdChars]. now rewrite Hc.
  - cbn [takeIdChars] in Hid. destruct (isIdChar d) eqn:Hd; [|discriminate].
    injection Hid as Hid. rewrite append_cons. cbn [takeIdChars]. rewrite Hd.
    f_equal. now apply IH.
Qed.

Lemma matchHere_some (lit s id : string) :
  matchHere lit s = Some id ->
  id <> "" /\ takeIdChars id = id /\ exists post, s = lit +:+ id +:+ post.
Proof.
  unfold matchHere. destruct (afterPrefix s lit) as [rest|] eqn:Ha; [|discriminate].
  destruct (JS.truthy (takeIdChars rest)) eqn:Ht; [|discriminate].
  intros E. injection E as <-. apply truthy_true in Ht.
  split; [exact Ht|]. split; [apply takeIdChars_idempotent|].
  destruct (takeIdChars_prefix rest) as [post Hpost].
  exists post. rewrite <- Hpost. now apply afterPrefix_some.
Qed.

Lemma matchAfter_some (lit s id : string) :
  matchAfter lit s = Some id ->
  id <> "" /\ takeIdChars id = id
  /\ exists pre post, s = pre +:+ lit +:+ id +:+ post.
Proof.
  induction s as [|c s IH].
  - cbn [matchAfter]. destruct (matchHere lit "") eqn:Hm; [|discriminate].
    intros E. injection E as ->. apply matchHere_some in Hm.
    destruct Hm as [H1 [H2 [post Hp]]]. split; [exact H1|]. split; [exact H2|].
    exists "", post. exact Hp.
  - cbn [matchAfter]. destruct (matchHere lit (String c s)) eqn:Hm.
    + intros E. injection E as ->. apply matchHere_some in Hm.
      destruct Hm as [H1 [H2 [post Hp]]]. split; [exact H1|]. split; [exact H2|].
      exists "", post. exact Hp.
    + intros E. destruct (IH E) as [H1 [H2 [pre [post Hp]]]].
      split; [exact H1|]. split; [exact H2|].
      exists (String c pre), post. rewrite append_cons. now f_equal.
Qed.

(** A literal that starts with a slash matches nowhere in a string of
    class characters. *)
Lemma matchAfter_slash_none (lit id : string) :
  takeIdChars id = id -> matchAfter (String "/" lit) id = None.
Proof.
  induction id as [|c id IH]; intros Hid; [reflexivity|].
  cbn [takeIdChars] in Hid. destruct (isIdChar c) eqn:Hc; [|discriminate].
  injection Hid as Hid. cbn [matchAfter]. unfold matchHere. cbn [afterPrefix].
  destruct (Ascii.eqb_spec "/" c) as [<-|_]; [discriminate Hc|].
  now apply IH.
Qed.

(** X15. What [extractSheetId] returns is a non-empty run of letters,
    digits, hyphens and underscores that occurs in the URL; it returns the
    sheet id of every export URL that [fetchSheetData] builds from such an
    id, and it returns a bare id as it is. *)
Theorem extractSheetId_spec :
  (forall url id, extractSheetId url = Some id ->
     id <> "" /\ takeIdChars id = id
     /\ exists pre post, url = pre +:+ id +:+ post)
  /\ (forall config : SheetConfig,
        sheetId config <> "" -> takeIdChars (sheetId config) = sheetId config ->
        extractSheetId (csvUrl config) = Some (sheetId config))
  /\ (forall id, id <> "" -> takeIdChars id = id -> extractSheetId id = Some id).
Proof.
  split; [|split].
  - intros url id. unfold extractSheetId.
    destruct (matchAfter "/spreadsheets/d/" url) as [x|] eqn:H1.
    { intros E. injection E as ->. apply matchAfter_some in H1.
      destruct H1 as [Ha [Hb [pre [post Hp]]]]. split; [exact Ha|]. split; [exact Hb|].
      exists (pre +:+ "/spreadsheets/d/"), post. now rewrite append_assoc. }
    destruct (matchAfter "/d/" url) as [x|] eqn:H2.
    { intros E. injection E as ->. apply matchAfter_some in H2.
      destruct H2 as [Ha [Hb [pre [post Hp]]]]. split; [exact Ha|]. split; [exact Hb|].
      exists (pre +:+ "/d/"), post. now rewrite append_assoc. }
    unfold matchWhole. destruct (JS.truthy url) eqn:Ht; [|discriminate].
    destruct (String.eqb_spec (takeIdChars url) url) as [Hid|_]; [|discriminate].
    cbn [andb]. intros E. injection E as <-. apply truthy_true in Ht.
    split; [exact Ht|]. split; [exact Hid|]. exists "", "".
    now rewrite append_empty_l, append_empty_r.
  - intros config Hne Hid. unfold extractSheetId.
    assert (Hm : matchAfter "/spreadsheets/d/" (csvUrl config) = Some (sheetId config)).
    { assert (Hstep : forall tail,
                matchAfter "/spreadsheets/d/"
                  ("https://docs.google.com/spreadsheets/d/"
                     +:+ sheetId config +:+ String "/" tail)
                = Some (sheetId config)).
      { intros tail. rewrite !append_cons, append_empty_l.
        cbn [matchAfter matchHere afterPrefix]. cbn.
        rewrite (takeIdChars_app _ "/" tail Hid eq_refl).
        apply truthy_true in Hne. now rewrite Hne. }
      unfold csvUrl. destruct (JS.truthyOpt (gid config)); apply Hstep. }
    now rewrite Hm.
  - intros id Hne Hid. unfold extractSheetId.
    rewrite (matchAfter_slash_none _ id Hid), (matchAfter_slash_none _ id Hid).
    unfold matchWhole. apply truthy_true in Hne. rewrite Hne, Hid, String.eqb_refl.
    reflexivity.
Qed.

Lemma extractSheetId_spec_witness :
  extractSheetId
    (csvUrl (mkConfig "1sJGO3IZ8Cev8F5pkdDo8uxXL7oCVlmsRtrGERsZHxSM" (Some "0")
               "Dashboard Sheet"))
  = Some "1sJGO3IZ8Cev8F5pkdDo8uxXL7oCVlmsRtrGERsZHxSM".
Proof.
  apply (proj1 (proj2 extractSheetId_spec)
           (mkConfig "1sJGO3IZ8Cev8F5pkdDo8uxXL7oCVlmsRtrGERsZHxSM" (Some "0")
              "Dashboard Sheet")).
  - discriminate.
  - vm_compute. reflexivity.
Defined.

(* ===================================================================== *)
(** ** [formatCellValue] *)
(* ===================================================================== *)

Lemma length_append (a b : string) :
  String.length (a +:+ b) = (String.length a + String.length b)%nat.
Proof.
  induction a as [|c a IH]; [reflexivity|].
  rewrite append_cons. cbn [String.length]. now rewrite IH.
Qed.

Lemma length_takeString (n : nat) :
  forall s, (n <= String.length s)%nat -> String.length (takeString n s) = n.
Proof.
  induction n as [|n IH]; intros s H; [reflexivity|].
  destruct s as [|c s]; cbn [String.length] in H; [lia|].
  cbn [takeString String.length]. rewrite IH; [reflexivity | lia].
Qed.

(** X16. [formatCellValue] returns the empty string for a value that is
    empty or white space, whatever the header; under a header that
    mentions neither date, budget nor price it returns the trimmed value
    when that has at most 50 code units and otherwise its first 47 code
    units followed by three dots, so never more than 50 code units. *)
Theorem formatCellValue_plain (dateToLocaleString floatToLocaleString : string -> option string)
    (value header : string) :
  (JS.trim value = "" ->
   formatCellValue dateToLocaleString floatToLocaleString value header = "")
  /\ (JS.includes (JS.toLowerCase header) "date" = false ->
      JS.includes (JS.toLowerCase header) "budget" = false ->
      JS.includes (JS.toLowerCase header) "price" = false ->
      let result := formatCellValue dateToLocaleString floatToLocaleString value header in
      (String.length result <= 50)%nat
      /\ ((String.length (JS.trim value) <= 50)%nat -> result = JS.trim value)
      /\ ((50 < String.length (JS.trim value))%nat ->
          result = takeString 47 (JS.trim value) +:+ "..."
          /\ String.length result = 50%nat)).
Proof.
  split.
  - intros E. unfold formatCellValue. cbv zeta. now rewrite E.
  - intros Hd Hb Hp. unfold formatCellValue. cbv zeta.
    rewrite Hd, Hb, Hp. cbn [andb orb].
    destruct (JS.truthy (JS.trim value)) eqn:Ht; cbn [negb].
    + destruct (Nat.ltb_spec 50 (String.length (JS.trim value))) as [Hlt|Hle].
      * assert (Hlen : String.length (takeString 47 (JS.trim value) +:+ "...") = 50%nat).
        { rewrite length_append, length_takeString by lia. reflexivity. }
        split; [lia|]. split; [lia|]. intros _. split; [reflexivity | exact Hlen].
      * split; [exact Hle|]. split; [reflexivity | lia].
    + assert (E : JS.trim value = "").
      { destruct (String.eqb_spec (JS.trim value) "") as [E|E]; [exact E|].
        apply truthy_true in E. congruence. }
      rewrite E. cbn [String.length]. split; [lia|]. split; [reflexivity | lia].
Qed.

Lemma formatCellValue_plain_witness :
  formatCellValue (fun _ => None) (fun _ => None)
    "  A campaign note that runs well past the limit of fifty code units  " "Notes"
  = "A campaign note that runs well past the limit o...".
Proof.
  destruct (proj2 (formatCellValue_plain (fun _ => None) (fun _ => None)
                     "  A campaign note that runs well past the limit of fifty code units  "
                     "Notes") eq_refl eq_refl eq_refl) as [_ [_ H]].
  destruct H as [H _]; [vm_compute; lia|].
  rewrite H. vm_compute. reflexivity.
Defined.

(* ===================================================================== *)
(** ** Line ends and unbalanced quotes *)
(* ===================================================================== *)

Lemma trimEnd_app_space (c : ascii) (s : string) :
  JS.isWhiteSpace c = true -> JS.trimEnd (s +:+ String c "") = JS.trimEnd s.
Proof.
  intros Hc. induction s as [|d s IH].
  - rewrite append_empty_l. cbn [JS.trimEnd]. now rewrite Hc.
  - rewrite append_cons, !trimEnd_cons, IH. reflexivity.
Qed.

Lemma trimStart_app_space (c : ascii) (s : string) :
  JS.isWhiteSpace c = true ->
  JS.trimStart (s +:+ String c "")
  = match JS.trimStart s with
    | EmptyString => EmptyString
    | String d t => String d t +:+ String c ""
    end.
Proof.
  intros Hc. induction s as [|d s IH].
  - rewrite append_empty_l. cbn [JS.trimStart]. now rewrite Hc.
  - rewrite append_cons. cbn [JS.trimStart].
    destruct (JS.isWhiteSpace d); [exact IH | now rewrite append_cons].
Qed.

(** White space added at the end is trimmed away. *)
Lemma trim_app_space (c : ascii) (s : string) :
  JS.isWhiteSpace c = true -> JS.trim (s +:+ String c "") = JS.trim s.
Proof.
  intros Hc. unfold JS.trim. rewrite (trimStart_app_space c s Hc).
  destruct (JS.trimStart s) as [|d t]; [reflexivity|].
  now apply trimEnd_app_space.
Qed.

Lemma isWhiteSpace_not_special (c : ascii) :
  JS.isWhiteSpace c = true ->
  Ascii.eqb c JS.dquote = false /\ Ascii.eqb c JS.comma = false.
Proof.
  intros Hc. split; apply Ascii.eqb_neq; intros ->; discriminate Hc.
Qed.

Lemma parseCSVRow_loop_app_space (c : ascii) (row : string) (values : list string)
    (current : string) (inQuotes : bool) :
  JS.isWhiteSpace c = true ->
  parseCSVRow_loop (row +:+ String c "") values current inQuotes
  = parseCSVRow_loop row values current inQuotes.
Proof.
  intros Hc. destruct (isWhiteSpace_not_special c Hc) as [Hq Hm].
  revert row values current inQuotes.
  apply (parseCSVRow_loop_ind (fun row values current inQuotes =>
    parseCSVRow_loop (row +:+ String c "") values current inQuotes
    = parseCSVRow_loop row values current inQuotes)).
  - intros values current inQuotes. rewrite append_empty_l.
    cbn [parseCSVRow_loop]. rewrite Hq, Hm. cbn [andb].
    now rewrite (trim_app_space c current Hc).
  - intros d rest values current inQuotes IH1 IH2.
    rewrite append_cons. cbn [parseCSVRow_loop].
    destruct (Ascii.eqb d JS.dquote).
    + destruct rest as [|e rest'].
      * rewrite append_empty_l. rewrite Hq.
        rewrite <- (append_empty_l (String c "")). apply IH1.
      * rewrite append_cons. destruct (Ascii.eqb_spec e JS.dquote) as [->|_].
        -- now apply IH2.
        -- rewrite <- append_cons. apply IH1.
    + destruct (Ascii.eqb d JS.comma && negb inQuotes); apply IH1.
Qed.

Lemma buildRow_rowValues (e i s : Z) (filteredHeaders : list string)
    (row row' : string) :
  rowValues row = rowValues row' ->
  buildRow e i s filteredHeaders row = buildRow e i s filteredHeaders row'.
Proof. intros E. unfold buildRow. now rewrite E. Qed.

(** X17. Line ends: white space at the end of a line, such as the
    carriage return that splitting a CRLF text at the line feeds leaves
    there, does not change the fields of the line, and a sheet whose lines
    all end in a carriage return normalizes to the same records and
    headers as the sheet without them. *)
Theorem parseRows_carriage_return :
  (forall (row : string) (c : ascii),
      JS.isWhiteSpace c = true ->
      parseCSVRow (row +:+ String c "") = parseCSVRow row)
  /\ (forall rows : list string,
      parseRows (map (fun row => row +:+ String "013" "") rows) = parseRows rows).
Proof.
  assert (H1 : forall (row : string) (c : ascii),
             JS.isWhiteSpace c = true ->
             parseCSVRow (row +:+ String c "") = parseCSVRow row).
  { intros row c Hc. unfold parseCSVRow. now apply parseCSVRow_loop_app_space. }
  split; [exact H1|].
  assert (Hv : forall row, rowValues (row +:+ String "013" "") = rowValues row).
  { intros row. unfold rowValues. now rewrite H1. }
  intros rows. unfold parseRows. cbv zeta.
  assert (Hh : rowValues (hd "" (map (fun row => row +:+ String "013" "") rows))
               = rowValues (hd "" rows)).
  { destruct rows as [|r rows]; [reflexivity|]. cbn [map hd]. apply Hv. }
  rewrite Hh.
  assert (Hf : forall (dataRows : list string) f st,
             (forall a row, f a (row +:+ String "013" "") = f a row) ->
             fold_left f (map (fun row => row +:+ String "013" "") dataRows) st
             = fold_left (B := string) (A := gset string * list (gmap string string))
                 f dataRows st).
  { intros dataRows f. induction dataRows as [|r l IH]; intros st E; [reflexivity|].
    cbn [map fold_left]. rewrite E. now apply IH. }
  destruct rows as [|r rows]; [reflexivity|]. cbn [map tl].
  rewrite Hf; [reflexivity|].
  intros [seen parsedData] row. unfold parseDataRow.
  now rewrite (buildRow_rowValues _ _ _ _ _ row (Hv row)).
Qed.

Lemma parseRows_carriage_return_witness :
  parseCSVRow ("a, b" +:+ String "013" "") = ["a"; "b"].
Proof.
  rewrite (proj1 parseRows_carriage_return "a, b" "013"%char eq_refl).
  reflexivity.
Defined.

(** X18. An unbalanced quote is tolerated: a line that opens a quote
    and never closes it is one field, its commas included. *)
Theorem parseCSVRow_unbalanced_quote (v : string) :
  JS.includes v (String JS.dquote "") = false ->
  parseCSVRow (String JS.dquote v) = [JS.trim v].
Proof.
  intros Hq. unfold parseCSVRow.
  assert (H : parseCSVRow_loop (String JS.dquote v) [] "" false
              = parseCSVRow_loop v [] "" true).
  { destruct v as [|c v]; [reflexivity|].
    rewrite includes_single in Hq. apply orb_false_iff in Hq. destruct Hq as [Hc _].
    cbn [parseCSVRow_loop]. change (Ascii.eqb JS.dquote JS.dquote) with true. cbv iota.
    now rewrite Ascii.eqb_sym, Hc. }
  rewrite H. rewrite <- (append_empty_r v) at 1.
  rewrite (parseCSVRow_loop_chars v "" [] "" true Hq) by discriminate.
  cbn [parseCSVRow_loop]. now rewrite append_empty_l.
Qed.

Lemma parseCSVRow_unbalanced_quote_witness :
  parseCSVRow (String JS.dquote "a, b,c ") = ["a, b,c"].
Proof.
  rewrite (parseCSVRow_unbalanced_quote "a, b,c " eq_refl). reflexivity.
Defined.

(* ===================================================================== *)
(** ** The excluded columns *)
(* ===================================================================== *)

Lemma findIndex_from_none {A} (p : A -> bool) (l : list A) :
  forall i, (forall x, In x l -> p x = false) -> JS.findIndex_from p l i = -1.
Proof.
  induction l as [|x l IH]; intros i H; [reflexivity|].
  cbn [JS.findIndex_from]. rewrite (H x (or_introl eq_refl)).
  apply IH. intros y Hy. apply H. now right.
Qed.

Lemma filter_idx_from_all {A} (p : Z -> bool) (l : list A) :
  forall i, (forall idx, i <= idx -> p idx = true) -> JS.filter_idx_from p l i = l.
Proof.
  induction l as [|x l IH]; intros i H; [reflexivity|].
  cbn [JS.filter_idx_from]. rewrite (H i) by lia. f_equal.
  apply IH. intros idx Hidx. apply H. lia.
Qed.

Lemma filter_idx_from_length {A} (e i s : Z) (l : list A) :
  forall n : Z,
    (Z.of_nat (length l)
     <= Z.of_nat (length (JS.filter_idx_from (keepColumn e i s) l n))
        + (if n <=? e then 1 else 0) + (if n <=? i then 1 else 0)
        + (if n <=? s then 1 else 0)).
Proof.
  induction l as [|x l IH]; intros n.
  - cbn [length JS.filter_idx_from].
    destruct (n <=? e); destruct (n <=? i); destruct (n <=? s); lia.
  - cbn [JS.filter_idx_from]. specialize (IH (n + 1)). unfold keepColumn at 1.
    destruct (Z.eqb_spec n e) as [He|He]; destruct (Z.eqb_spec n i) as [Hi|Hi];
      destruct (Z.eqb_spec n s) as [Hs|Hs]; cbn [negb andb length];
      destruct (Z.leb_spec n e); destruct (Z.leb_spec n i); destruct (Z.leb_spec n s);
      destruct (Z.leb_spec (n + 1) e); destruct (Z.leb_spec (n + 1) i);
      destruct (Z.leb_spec (n + 1) s); lia.
Qed.

(** X19. The exclusion removes at most three columns, and none from a
    sheet in which no header is an email-template, id or sheet-id header:
    then the headers are returned whole, every row keeps all its values and
    no sheet-id value is read. *)
Theorem filteredHeaders_bounds (headerLine : string) :
  (length (rowValues headerLine) <= length (filteredHeadersOf headerLine) + 3)%nat
  /\ ((forall h, In h (rowValues headerLine) ->
         isEmailTemplate h = false /\ isIdColumn h = false /\ isSheetId h = false) ->
      filteredHeadersOf headerLine = rowValues headerLine
      /\ forall row, retainedOf headerLine row = rowValues row
                     /\ sheetIdValueOf (sheetIdIndexOf headerLine) (rowValues row)
                        = Some "").
Proof.
  split.
  - pose proof (filter_idx_from_length (emailTemplateIndexOf headerLine)
                  (idColumnIndexOf headerLine) (sheetIdIndexOf headerLine)
                  (rowValues headerLine) 0) as H.
    unfold filteredHeadersOf, JS.filter_idx.
    destruct (0 <=? emailTemplateIndexOf headerLine);
      destruct (0 <=? idColumnIndexOf headerLine);
      destruct (0 <=? sheetIdIndexOf headerLine); lia.
  - intros H.
    assert (He : emailTemplateIndexOf headerLine = -1).
    { apply findIndex_from_none. intros h Hh. now apply H. }
    assert (Hi : idColumnIndexOf headerLine = -1).
    { apply findIndex_from_none. intros h Hh. now apply H. }
    assert (Hs : sheetIdIndexOf headerLine = -1).
    { apply findIndex_from_none. intros h Hh. now apply H. }
    assert (Hkeep : forall idx, 0 <= idx -> keepColumn (-1) (-1) (-1) idx = true).
    { intros idx Hidx. unfold keepColumn.
      destruct (Z.eqb_spec idx (-1)); [lia | reflexivity]. }
    unfold filteredHeadersOf, retainedOf, retained, JS.filter_idx.
    rewrite He, Hi, Hs. split; [now apply filter_idx_from_all|].
    intros row. split; [now apply filter_idx_from_all | reflexivity].
Qed.

Lemma filteredHeaders_bounds_witness :
  filteredHeadersOf "Campaign Name, Budget ,Notes" = ["Campaign Name"; "Budget"; "Notes"].
Proof.
  destruct (proj2 (filteredHeaders_bounds "Campaign Name, Budget ,Notes")) as [H _].
  - intros h Hh. vm_compute in Hh.
    destruct Hh as [<-|[<-|[<-|[]]]]; repeat split; reflexivity.
  - rewrite H. reflexivity.
Defined.
